(** * Frame-timestamp / GPS-track correlation: a shallow embedding of [main.py]

    The development follows the layout of the source:
    - a small model of the Python run time the program relies on (values,
      exceptions, binary64 floats, the string methods it calls);
    - the functions of [main.py], under their own names, in source order;
    - the properties of the specification, stated on those functions. *)

From Stdlib Require Import ZArith String Ascii List Lia Bool.
From Stdlib Require Import Floats.SpecFloat DecimalString DecimalNat DecimalFacts.
From Stdlib Require Import Sorting.Permutation.
From Stdlib Require Import QArith Qcanon.
From stdpp Require Import base option gmap strings list fin_maps.

Set Warnings "-register-all".
Local Open Scope Z_scope.

(** ** Exceptions and results *)

(** The exception classes the program can raise or meet.  Messages are kept
    where the source writes them. *)
Inductive exn : Type :=
| ValueError (msg : string)
| TypeError
| KeyError (key : string)
| IndexError
| AttributeError
| OverflowError
| ZeroDivisionError
| FileNotFoundError (msg : string).

(** A computation either returns a value or raises. *)
Inductive result (A : Type) : Type :=
| Ok (a : A)
| Raise (e : exn).
Arguments Ok {A} a.
Arguments Raise {A} e.

#[global] Instance result_ret : MRet result := fun A a => Ok a.
#[global] Instance result_bind : MBind result := fun A B f m =>
  match m with
  | Ok a => f a
  | Raise e => Raise e
  end.
#[global] Instance result_fmap : FMap result := fun A B f m =>
  match m with
  | Ok a => Ok (f a)
  | Raise e => Raise e
  end.

Definition is_ok {A} (r : result A) : bool :=
  match r with Ok _ => true | Raise _ => false end.

(** ** Binary64 floating point

    Python's [float] is IEEE 754 binary64 with round-to-nearest-even; the
    Standard Library's [SpecFloat] gives its operations on integers
    mantissa and exponent. *)

Abbreviation float := spec_float.

Definition prec : Z := 53.
Definition emax : Z := 1024.

Definition fadd : float -> float -> float := SFadd prec emax.
Definition fsub : float -> float -> float := SFsub prec emax.
Definition fmul : float -> float -> float := SFmul prec emax.
Definition fdiv : float -> float -> float := SFdiv prec emax.

(** The nearest binary64 to an integer (infinite past the range). *)
Definition float_of_Z (z : Z) : float := binary_normalize prec emax z 0 false.

(** [float(n)] for an int [n]: OverflowError as soon as rounding would
    leave the finite range, that is at [2^1024 - 2^970] in magnitude. *)
Definition int_to_float (z : Z) : result float :=
  if Z.abs z <? 2 ^ 1024 - 2 ^ 970 then Ok (float_of_Z z) else Raise OverflowError.

(** [int(x)] for a float [x]: truncation toward zero. *)
Definition float_to_int (x : float) : result Z :=
  match x with
  | S754_nan => Raise (ValueError "cannot convert float NaN to integer")
  | S754_infinity _ => Raise OverflowError
  | S754_zero _ => Ok 0
  | S754_finite s m e =>
      let mag := Z.shiftl (Z.pos m) e in
      Ok (if s then - mag else mag)
  end.

Definition float_is_zero (x : float) : bool :=
  match x with S754_zero _ => true | _ => false end.

(** The float literals of the source. *)
Definition f_1e6 : float := float_of_Z 1000000.
Definition f_1e9 : float := float_of_Z 1000000000.

(** A decimal literal [n / 10^k] with at most 22 fractional digits and a
    numerator below [2^53], as Python reads it: both integers are binary64
    numbers, so one correctly rounded division gives the nearest float. *)
Definition decimal (n : Z) (k : nat) : float :=
  fdiv (float_of_Z n) (float_of_Z (10 ^ Z.of_nat k)).

(** ** Numbers *)

(** Python numbers as the program meets them: ints of any size and floats;
    a bool counts as the int 0 or 1. *)
Inductive pynum : Type :=
| NInt (z : Z)
| NFloat (f : float).

(** [a + b]. *)
Definition num_add (a b : pynum) : result pynum :=
  match a, b with
  | NInt x, NInt y => Ok (NInt (x + y))
  | NInt x, NFloat y => fx ← int_to_float x; Ok (NFloat (fadd fx y))
  | NFloat x, NInt y => fy ← int_to_float y; Ok (NFloat (fadd x fy))
  | NFloat x, NFloat y => Ok (NFloat (fadd x y))
  end.

(** [a - b]. *)
Definition num_sub (a b : pynum) : result pynum :=
  match a, b with
  | NInt x, NInt y => Ok (NInt (x - y))
  | NInt x, NFloat y => fx ← int_to_float x; Ok (NFloat (fsub fx y))
  | NFloat x, NInt y => fy ← int_to_float y; Ok (NFloat (fsub x fy))
  | NFloat x, NFloat y => Ok (NFloat (fsub x y))
  end.

(** [abs(a)]. *)
Definition num_abs (a : pynum) : pynum :=
  match a with
  | NInt x => NInt (Z.abs x)
  | NFloat x => NFloat (SFabs x)
  end.

(** Exact comparison of an int with a float, as Python does it. *)
Definition Z_compare_float (z : Z) (x : float) : option comparison :=
  match x with
  | S754_nan => None
  | S754_infinity s => Some (if s then Gt else Lt)
  | S754_zero _ => Some (z ?= 0)
  | S754_finite s m e =>
      let v := if s then Z.neg m else Z.pos m in
      Some (if 0 <=? e then z ?= v * 2 ^ e else z * 2 ^ (- e) ?= v)
  end.

(** [a < b]. *)
Definition num_lt (a b : pynum) : bool :=
  match a, b with
  | NInt x, NInt y => x <? y
  | NFloat x, NFloat y => SFltb x y
  | NInt x, NFloat y =>
      match Z_compare_float x y with Some Lt => true | _ => false end
  | NFloat x, NInt y =>
      match Z_compare_float y x with Some Gt => true | _ => false end
  end.

(** [a / b], true division: always a float. *)
Definition num_truediv (a b : pynum) : result float :=
  match a, b with
  | NInt x, NInt y =>
      if y =? 0 then Raise ZeroDivisionError else
      match x with
      | Z0 => Ok (S754_zero (y <? 0))
      | _ =>
          match fdiv (S754_finite (x <? 0) (Z.to_pos (Z.abs x)) 0)
                     (S754_finite (y <? 0) (Z.to_pos (Z.abs y)) 0) with
          | S754_infinity _ => Raise OverflowError
          | q => Ok q
          end
      end
  | NFloat x, NInt y =>
      fy ← int_to_float y;
      if y =? 0 then Raise ZeroDivisionError else Ok (fdiv x fy)
  | NInt x, NFloat y =>
      fx ← int_to_float x;
      if float_is_zero y then Raise ZeroDivisionError else Ok (fdiv fx y)
  | NFloat x, NFloat y =>
      if float_is_zero y then Raise ZeroDivisionError else Ok (fdiv x y)
  end.

(** [str(n)] for a non-negative int. *)
Definition str_of_nat (n : nat) : string :=
  NilZero.string_of_uint (Nat.to_uint n).

(** ** Values *)

(** The values that flow through the program: what [json.load] produces,
    and what the program builds to hand to [json.dump].  A dict has string
    keys, as every JSON object and every dict literal of the source. *)
Inductive pyval : Type :=
| VNone
| VBool (b : bool)
| VInt (z : Z)
| VFloat (f : float)
| VStr (s : string)
| VList (l : list pyval)
| VDict (d : gmap string pyval).

(** The number a value stands for in arithmetic, TypeError otherwise. *)
Definition as_num (v : pyval) : result pynum :=
  match v with
  | VBool b => Ok (NInt (Z.b2z b))
  | VInt z => Ok (NInt z)
  | VFloat f => Ok (NFloat f)
  | _ => Raise TypeError
  end.

(** [v[key]] for a string key.  Only a dict accepts one. *)
Definition subscript_key (v : pyval) (key : string) : result pyval :=
  match v with
  | VDict d =>
      match d !! key with
      | Some x => Ok x
      | None => Raise (KeyError key)
      end
  | _ => Raise TypeError
  end.

(** [d[key]] for a dict. *)
Definition dict_get_item (d : gmap string pyval) (key : string) : result pyval :=
  match d !! key with
  | Some x => Ok x
  | None => Raise (KeyError key)
  end.

Definition chars_of (s : string) : list pyval :=
  (fun c => VStr (String c EmptyString)) <$> list_ascii_of_string s.

(** [v[i]] for a non-negative int literal [i]. *)
Definition subscript_idx (v : pyval) (i : nat) : result pyval :=
  match v with
  | VList l =>
      match l !! i with
      | Some x => Ok x
      | None => Raise IndexError
      end
  | VStr s =>
      match chars_of s !! i with
      | Some x => Ok x
      | None => Raise IndexError
      end
  | VDict _ => Raise (KeyError (str_of_nat i))
  | _ => Raise TypeError
  end.

(** The items a [for] loop draws from a value.  A list gives its elements,
    a string its characters, a dict its keys (CPython yields them in
    insertion order, which a finite map does not record; here they come in
    the map's own order). *)
Definition py_iter (v : pyval) : result (list pyval) :=
  match v with
  | VList l => Ok l
  | VStr s => Ok (chars_of s)
  | VDict d => Ok (VStr <$> (map_to_list d).*1)
  | _ => Raise TypeError
  end.

(** [v.get(key, default)]: a dict method. *)
Definition py_get (v : pyval) (key : string) (dflt : pyval) : result pyval :=
  match v with
  | VDict d =>
      match d !! key with
      | Some x => Ok x
      | None => Ok dflt
      end
  | _ => Raise AttributeError
  end.

(** ** Strings

    A [str] is modelled by a [string] whose characters are the code points
    below 256. *)

(** [str.isspace] on one character: the white space of Unicode below 256. *)
Definition is_space (c : ascii) : bool :=
  let n := nat_of_ascii c in
  ((9 <=? n) && (n <=? 13) || (28 <=? n) && (n <=? 32) || (n =? 133) || (n =? 160))%nat.

(** [s.startswith(p)]. *)
Definition startswith (p s : string) : bool := String.prefix p s.

(** [s.endswith(p)]. *)
Definition endswith (p s : string) : bool :=
  String.prefix (String.rev p) (String.rev s).

Fixpoint lstrip (s : string) : string :=
  match s with
  | EmptyString => EmptyString
  | String c s' => if is_space c then lstrip s' else s
  end.

(** [s.strip()]. *)
Definition str_strip (s : string) : string :=
  String.rev (lstrip (String.rev (lstrip s))).

(** Truth value of a string: non-empty. *)
Definition str_truthy (s : string) : bool :=
  match s with EmptyString => false | _ => true end.

Fixpoint split_go (cur : string) (s : string) : list string :=
  match s with
  | EmptyString => if str_truthy cur then [cur] else []
  | String c s' =>
      if is_space c
      then (if str_truthy cur then cur :: split_go EmptyString s'
            else split_go EmptyString s')
      else split_go (cur +:+ String c EmptyString) s'
  end.

(** [s.split()]: the maximal runs of non-space characters. *)
Definition str_split (s : string) : list string := split_go EmptyString s.

(** [parts[i]] on a list of strings. *)
Definition list_item {A} (l : list A) (i : nat) : result A :=
  match l !! i with
  | Some x => Ok x
  | None => Raise IndexError
  end.

(** [os.path.join(a, b)] on a POSIX system. *)
Definition path_join (a b : string) : string :=
  if startswith "/" b then b
  else if negb (str_truthy a) || endswith "/" a then a +:+ b
  else a +:+ "/" +:+ b.

(** ** Dates *)

(** A naive [datetime]: calendar fields without a zone. *)
Record datetime : Type := mk_datetime {
  year : Z; month : Z; day : Z;
  hour : Z; minute : Z; second : Z;
  microsecond : Z
}.

Definition is_leap (y : Z) : bool :=
  (y mod 4 =? 0) && (negb (y mod 100 =? 0) || (y mod 400 =? 0)).

Definition days_before_year (y : Z) : Z :=
  let y1 := y - 1 in y1 * 365 + y1 / 4 - y1 / 100 + y1 / 400.

Definition days_in_month (y m : Z) : Z :=
  if m =? 2 then (if is_leap y then 29 else 28)
  else if (m =? 4) || (m =? 6) || (m =? 9) || (m =? 11) then 30
  else 31.

Fixpoint days_before_month_go (y : Z) (m : nat) : Z :=
  match m with
  | O => 0
  | S m' => days_before_month_go y m' + days_in_month y (Z.of_nat m)
  end.

(** Days in the year before the first day of month [m]. *)
Definition days_before_month (y m : Z) : Z :=
  days_before_month_go y (Z.to_nat (m - 1)).

(** Proleptic Gregorian ordinal, 0001-01-01 being day 1. *)
Definition ymd_to_ord (y m d : Z) : Z :=
  days_before_year y + days_before_month y m + d.

(** Seconds from 1970-01-01 00:00:00 to the calendar fields read as UTC. *)
Definition utc_seconds (dt : datetime) : Z :=
  (ymd_to_ord (year dt) (month dt) (day dt) - 719163) * 86400
  + hour dt * 3600 + minute dt * 60 + second dt.

(** ** What the run time supplies

    Three library services the program calls and whose definition lies
    outside it: [datetime.strptime], the [float] constructor on a string,
    and the local time zone, given as the offset from UTC (in seconds) in
    force at a local time. *)
Class Runtime : Type := {
  strptime : string -> string -> result datetime;
  float_of_str : string -> result float;
  utcoffset : datetime -> Z
}.

(** [dt.timestamp()] for a naive datetime: the whole seconds since the
    epoch of the local time, as a float, plus [microsecond / 1e6]. *)
Definition datetime_timestamp {rt : Runtime} (dt : datetime) : float :=
  fadd (float_of_Z (utc_seconds dt - utcoffset dt))
       (fdiv (float_of_Z (microsecond dt)) f_1e6).

(** ** The file system, as the program sees it *)

Record filesystem : Type := {
  (** [os.listdir(folder)] *)
  listdir : string -> result (list string);
  (** [open(path).readlines()]; [None] when it raises IOError *)
  readlines : string -> option (list string);
  (** [json.load(open(path))]; [None] when it raises IOError or
      JSONDecodeError *)
  json_load : string -> option pyval;
  (** [open(path, 'w')] followed by [json.dump(document, file, indent=4)]
      runs to its end; [false] when one of them raises IOError *)
  write_ok : string -> pyval -> bool
}.

(** * The program *)

(** ** Parse input files *)

(** [parse_json_file]: the data, or None after a reported failure. *)
Definition parse_json_file (fs : filesystem) (file_path : string) : pyval :=
  match json_load fs file_path with
  | Some data => data
  | None => VNone
  end.

(** [date_str_to_timestamp] *)
Definition date_str_to_timestamp {rt : Runtime} (dt : datetime) : result Z :=
  let timestamp_seconds := datetime_timestamp dt in
  let microseconds := microsecond dt in
  let nanoseconds := microseconds * 1000 in
  scaled ← float_to_int (fmul timestamp_seconds f_1e9);
  Ok (scaled + nanoseconds).

(** A position sample [(timestamp, latitude, longitude)]. *)
Definition sample : Type := Z * float * float.
Definition s_time (x : sample) : Z := x.1.1.
Definition s_lat (x : sample) : float := x.1.2.
Definition s_lon (x : sample) : float := x.2.

(** [next((i + 1 for i, line in enumerate(lines)
          if line.startswith('%  GPST')), None)] *)
Fixpoint data_start_from (i : nat) (lines : list string) : option nat :=
  match lines with
  | [] => None
  | line :: rest =>
      if startswith "%  GPST" line then Some (S i)
      else data_start_from (S i) rest
  end.

Definition data_start_index (lines : list string) : option nat :=
  data_start_from 0 lines.

(** The test of the [continue] statement. *)
Definition skipped (line : string) : bool :=
  startswith "%" line || negb (str_truthy (str_strip line)).

(** The body of the loop, after the [continue] test: one line to one
    sample. *)
Definition parse_pos_line {rt : Runtime} (line : string) : result sample :=
  let parts := str_split line in
  p0 ← list_item parts 0;
  p1 ← list_item parts 1;
  dt ← strptime (p0 +:+ " " +:+ p1) "%Y/%m/%d %H:%M:%S.%f";
  timestamp ← date_str_to_timestamp dt;
  p2 ← list_item parts 2;
  latitude ← float_of_str p2;
  p3 ← list_item parts 3;
  longitude ← float_of_str p3;
  Ok (timestamp, latitude, longitude).

(** The [for] loop of [parse_pos_file], [pos_data] being the list built
    so far. *)
Fixpoint parse_pos_loop {rt : Runtime} (lines : list string) (pos_data : list sample)
  : result (list sample) :=
  match lines with
  | [] => Ok pos_data
  | line :: rest =>
      if skipped line then parse_pos_loop rest pos_data
      else
        s ← parse_pos_line line;
        parse_pos_loop rest (pos_data ++ [s])
  end.

(** [parse_pos_file] once the lines are read. *)
Definition parse_pos_lines {rt : Runtime} (lines : list string) : result (list sample) :=
  match data_start_index lines with
  | None => Ok []
  | Some i => parse_pos_loop (drop i lines) []
  end.

(** [parse_pos_file]: None after a reported read failure, else the
    track. *)
Definition parse_pos_file {rt : Runtime} (fs : filesystem) (file_path : string)
  : result (option (list sample)) :=
  match readlines fs file_path with
  | None => Ok None
  | Some lines => Some <$> parse_pos_lines lines
  end.

(** ** Associate timestamps with GPS coordinates *)

(** The built-in [min(items, key=key)]: the first item becomes the best
    one, and a later item replaces it only when its key is strictly
    smaller. *)
Fixpoint min_loop {A} (key : A -> result pynum) (items : list A)
    (best : A) (best_key : pynum) : result A :=
  match items with
  | [] => Ok best
  | x :: rest =>
      k ← key x;
      if num_lt k best_key then min_loop key rest x k
      else min_loop key rest best best_key
  end.

Definition py_min {A} (key : A -> result pynum) (items : list A) : result A :=
  match items with
  | [] => Raise (ValueError "min() arg is an empty sequence")
  | x :: rest => k ← key x; min_loop key rest x k
  end.

(** [lambda x: abs(x[0] - target_timestamp)] *)
Definition time_distance (target_timestamp : pyval) (x : sample) : result pynum :=
  t ← as_num target_timestamp;
  d ← num_sub (NInt (s_time x)) t;
  Ok (num_abs d).

(** The local variable [closest] of [find_closest_timestamp].  [pos_data]
    is what [parse_pos_file] returned: a list, or None. *)
Definition closest_sample (pos_data : option (list sample)) (target_timestamp : pyval)
  : result sample :=
  match pos_data with
  | None => Raise TypeError
  | Some items => py_min (time_distance target_timestamp) items
  end.

(** [find_closest_timestamp] *)
Definition find_closest_timestamp (pos_data : option (list sample))
    (target_timestamp : pyval) : result (float * float) :=
  closest ← closest_sample pos_data target_timestamp;
  Ok (s_lat closest, s_lon closest).

(** The dict appended for one frame. *)
Definition association (frame_index frame_timestamp : pyval) (latitude longitude : float)
  : gmap string pyval :=
  <["index" := frame_index]> (<["timestamp" := frame_timestamp]>
  (<["latitude" := VFloat latitude]> (<["longitude" := VFloat longitude]> ∅))).

(** The [for] loop of [associate_timestamps_with_gps], [associations]
    being the list built so far. *)
Fixpoint associate_loop (frames : list pyval) (pos_data : option (list sample))
    (associations : list (gmap string pyval)) : result (list (gmap string pyval)) :=
  match frames with
  | [] => Ok associations
  | frame :: rest =>
      frame_index ← subscript_idx frame 0;
      frame_timestamp ← subscript_idx frame 1;
      coords ← find_closest_timestamp pos_data frame_timestamp;
      associate_loop rest pos_data
        (associations ++ [association frame_index frame_timestamp coords.1 coords.2])
  end.

(** [associate_timestamps_with_gps] *)
Definition associate_timestamps_with_gps (json_data : pyval)
    (pos_data : option (list sample)) : result (list (gmap string pyval)) :=
  timestamps ← subscript_key json_data "timestamps";
  frames ← py_iter timestamps;
  associate_loop frames pos_data [].

(** ** Calculate centroid *)

(** [key in d] *)
Definition has_key (key : string) (d : gmap string pyval) : bool :=
  match d !! key with Some _ => true | None => false end.

(** The built-in [sum]: from the int 0, left to right.  (From CPython 3.12
    on, a run of floats is added with Neumaier's compensation,
    [sum_compensated] below.) *)
Fixpoint sum_from (acc : pynum) (items : list pyval) : result pynum :=
  match items with
  | [] => Ok acc
  | v :: rest =>
      n ← as_num v;
      acc' ← num_add acc n;
      sum_from acc' rest
  end.

Definition py_sum (items : list pyval) : result pynum := sum_from (NInt 0) items.

Definition is_nil {A} (l : list A) : bool :=
  match l with [] => true | _ => false end.

(** [calculate_centroid] *)
Definition calculate_centroid (locations : list (gmap string pyval))
  : result (float * float) :=
  if is_nil locations then
    Raise (ValueError "The list of locations is empty")
  else if negb (forallb (fun loc => has_key "latitude" loc && has_key "longitude" loc)
                        locations) then
    Raise (ValueError "Each location must have 'latitude' and 'longitude' keys")
  else
    latitudes ← mapM (fun loc => dict_get_item loc "latitude") locations;
    longitudes ← mapM (fun loc => dict_get_item loc "longitude") locations;
    if is_nil latitudes || is_nil longitudes then
      Raise (ValueError "Latitude and longitude lists cannot be empty")
    else
      lat_sum ← py_sum latitudes;
      centroid_lat ← num_truediv lat_sum (NInt (Z.of_nat (length latitudes)));
      lon_sum ← py_sum longitudes;
      centroid_lon ← num_truediv lon_sum (NInt (Z.of_nat (length longitudes)));
      Ok (centroid_lat, centroid_lon).

(** ** Generate GeoJSON output *)

(** One element of the [features] comprehension. *)
Definition feature (assoc : gmap string pyval) : result pyval :=
  longitude ← dict_get_item assoc "longitude";
  latitude ← dict_get_item assoc "latitude";
  index ← dict_get_item assoc "index";
  timestamp ← dict_get_item assoc "timestamp";
  Ok (VDict (
    <["type" := VStr "Feature"]> (
    <["geometry" := VDict (
       <["type" := VStr "Point"]> (
       <["coordinates" := VList [longitude; latitude]]> ∅))]> (
    <["properties" := VDict (
       <["index" := index]> (
       <["timestamp" := timestamp]> ∅))]> ∅)))).

(** [generate_geojson_output] *)
Definition generate_geojson_output (json_data : pyval)
    (associations : list (gmap string pyval)) (centroid : float * float)
  : result pyval :=
  features ← mapM feature associations;
  filename ← py_get json_data "filename" (VStr "");
  device_alias ← py_get json_data "device_alias" (VStr "");
  total ← py_get json_data "total" (VInt 0);
  beginning ← py_get json_data "beginning" (VStr "");
  end_ ← py_get json_data "end" (VStr "");
  Ok (VDict (
    <["type" := VStr "FeatureCollection"]> (
    <["filename" := filename]> (
    <["device_alias" := device_alias]> (
    <["total" := total]> (
    <["beginning" := beginning]> (
    <["end" := end_]> (
    <["centroid" := VDict (
       <["lat" := VFloat centroid.1]> (
       <["lon" := VFloat centroid.2]> ∅))]> (
    <["features" := VList features]> ∅))))))))).

(** The files written so far: path and document, oldest first. *)
Definition writes : Type := list (string * pyval).

(** [write_geojson_file]: the IOError of a write that fails is caught and
    printed; the document is then not among the files written, and the
    caller goes on. *)
Definition write_geojson_file (fs : filesystem) (filepath : string) (geojson : pyval)
    (w : writes) : writes :=
  if write_ok fs filepath geojson then w ++ [(filepath, geojson)] else w.

(** ** Main function *)

(** [[(index, os.path.join(folder, file))
      for index, file in enumerate(files) if file.endswith('.json')]] *)
Fixpoint json_files_from (folder : string) (index : nat) (files : list string)
  : list (nat * string) :=
  match files with
  | [] => []
  | file :: rest =>
      if endswith ".json" file
      then (index, path_join folder file) :: json_files_from folder (S index) rest
      else json_files_from folder (S index) rest
  end.

(** [next((os.path.join(folder, file) for file in files
          if file.endswith('.pos')), None)] *)
Fixpoint find_pos_file (folder : string) (files : list string) : option string :=
  match files with
  | [] => None
  | file :: rest =>
      if endswith ".pos" file then Some (path_join folder file)
      else find_pos_file folder rest
  end.

(** The body of the loop of [process_files] up to the document, for one
    manifest. *)
Definition manifest_document (fs : filesystem) (pos_data : option (list sample))
    (json_file : string) : result pyval :=
  let json_data := parse_json_file fs json_file in
  associations ← associate_timestamps_with_gps json_data pos_data;
  centroid ← calculate_centroid associations;
  generate_geojson_output json_data associations centroid.

(** The [for] loop of [process_files]: the files written, and how the loop
    ended. *)
Fixpoint process_loop (fs : filesystem) (output_file : string)
    (pos_data : option (list sample)) (json_files : list (nat * string)) (w : writes)
  : writes * result unit :=
  match json_files with
  | [] => (w, Ok tt)
  | (index, json_file) :: rest =>
      match manifest_document fs pos_data json_file with
      | Raise e => (w, Raise e)
      | Ok geojson =>
          process_loop fs output_file pos_data rest
            (write_geojson_file fs (output_file +:+ "_" +:+ str_of_nat index +:+ ".json")
                                geojson w)
      end
  end.

(** [process_files] *)
Definition process_files {rt : Runtime} (fs : filesystem) (folder output_file : string)
  : writes * result unit :=
  match listdir fs folder with
  | Raise e => ([], Raise e)
  | Ok files =>
      let json_files := json_files_from folder 0 files in
      match find_pos_file folder files with
      | None => ([], Raise (FileNotFoundError "No .pos file found in the folder."))
      | Some pos_file =>
          match parse_pos_file fs pos_file with
          | Raise e => ([], Raise e)
          | Ok pos_data => process_loop fs output_file pos_data json_files []
          end
      end
  end.

(** * Definitions used to state the properties *)

(** ** The arithmetic mean, over any arithmetic *)

Section Mean.
Context {F : Type}.
Variable add : F -> F -> F.
Variable zero : F.
Variable divn : F -> nat -> F.

(** [sum(xs) / len(xs)] *)
Definition mean_with (xs : list F) : F :=
  divn (fold_left add xs zero) (length xs).
End Mean.

(** The mean in the program's arithmetic: binary64 sums from the int 0,
    divided by the length as a float. *)
Definition float_mean (xs : list float) : float :=
  mean_with fadd (S754_zero false) (fun s n => fdiv s (float_of_Z (Z.of_nat n))) xs.

(** A natural number as an exact rational. *)
Fixpoint Qc_of_nat (n : nat) : Qc :=
  match n with
  | O => Q2Qc 0
  | S k => (Qc_of_nat k + Q2Qc 1)%Qc
  end.

(** The same mean in exact rational arithmetic. *)
Definition Qc_mean (xs : list Qc) : Qc :=
  mean_with Qcplus (Q2Qc 0) (fun s n => (s / Qc_of_nat n)%Qc) xs.

(** A location with the two coordinate keys and nothing else. *)
Definition latlon (latitude longitude : float) : gmap string pyval :=
  <["latitude" := VFloat latitude]> (<["longitude" := VFloat longitude]> ∅).

(** CPython 3.12's [sum] on a non-empty list of floats. *)
Definition compensated_step (st : float * float) (x : float) : float * float :=
  let '(f_result, c) := st in
  let t := fadd f_result x in
  let c' := if SFleb (SFabs x) (SFabs f_result)
            then fadd c (fadd (fsub f_result t) x)
            else fadd c (fadd (fsub x t) f_result) in
  (t, c').

Definition float_is_finite (x : float) : bool :=
  match x with S754_zero _ | S754_finite _ _ _ => true | _ => false end.

Definition sum_compensated (xs : list float) : float :=
  match xs with
  | [] => S754_zero false
  | x :: rest =>
      let '(f_result, c) :=
        fold_left compensated_step rest (fadd (S754_zero false) x, S754_zero false) in
      if negb (float_is_zero c) && float_is_finite c then fadd f_result c else f_result
  end.

(** ** The shape of the output document *)

(** The Feature the specification asks for, from the four fields of an
    association. *)
Definition point_feature (index timestamp latitude longitude : pyval) : pyval :=
  VDict (
    <["type" := VStr "Feature"]> (
    <["geometry" := VDict (
       <["type" := VStr "Point"]> (
       <["coordinates" := VList [longitude; latitude]]> ∅))]> (
    <["properties" := VDict (
       <["index" := index]> (
       <["timestamp" := timestamp]> ∅))]> ∅))).

(** A manifest field, or the default of its declared type. *)
Definition field_or (d : gmap string pyval) (key : string) (dflt : pyval) : pyval :=
  match d !! key with Some v => v | None => dflt end.

(** ** Failure isolation, as the specification words it *)

(** Every manifest of the folder whose own pipeline succeeds, and whose
    document can be written, has its document written, whatever happens to
    the others. *)
Definition isolates_failures {rt : Runtime} (fs : filesystem) (folder output_file : string)
  : Prop :=
  forall files pos_file pos_data index json_file geojson,
    listdir fs folder = Ok files ->
    find_pos_file folder files = Some pos_file ->
    parse_pos_file fs pos_file = Ok pos_data ->
    (index, json_file) ∈ json_files_from folder 0 files ->
    manifest_document fs pos_data json_file = Ok geojson ->
    write_ok fs (output_file +:+ "_" +:+ str_of_nat index +:+ ".json") geojson = true ->
    (output_file +:+ "_" +:+ str_of_nat index +:+ ".json", geojson)
      ∈ (process_files fs folder output_file).1.

(** The documents of the manifests of a list that give one, each with
    the path [process_files] writes it to. *)
Fixpoint documents (fs : filesystem) (output_file : string)
    (pos_data : option (list sample)) (json_files : list (nat * string)) : writes :=
  match json_files with
  | [] => []
  | (index, json_file) :: rest =>
      match manifest_document fs pos_data json_file with
      | Ok geojson =>
          (output_file +:+ "_" +:+ str_of_nat index +:+ ".json", geojson)
          :: documents fs output_file pos_data rest
      | Raise _ => documents fs output_file pos_data rest
      end
  end.

(** Those of a list of documents whose write does not fail: the files
    that [write_geojson_file] leaves when it is called on each in turn. *)
Definition written (fs : filesystem) (docs : writes) : writes :=
  List.filter (fun pd => write_ok fs pd.1 pd.2) docs.

(** ** A run time for the examples

    Fixed-layout readers for the two formats of the position log and the
    zone of the repository's tests (two hours east of UTC). *)

Definition digit_value (c : ascii) : option Z :=
  let n := nat_of_ascii c in
  if ((48 <=? n) && (n <=? 57))%nat then Some (Z.of_nat (n - 48)) else None.

Fixpoint digits_value (acc : Z) (s : string) : option Z :=
  match s with
  | EmptyString => Some acc
  | String c s' =>
      match digit_value c with
      | Some d => digits_value (acc * 10 + d) s'
      | None => None
      end
  end.

(** A non-empty run of decimal digits. *)
Definition number (s : string) : option Z :=
  if str_truthy s then digits_value 0 s else None.

Fixpoint cut_go (sep : ascii) (cur : string) (s : string) : list string :=
  match s with
  | EmptyString => [cur]
  | String c s' =>
      if Ascii.eqb c sep then cur :: cut_go sep EmptyString s'
      else cut_go sep (cur +:+ String c EmptyString) s'
  end.

(** [s.split(sep)] for a one-character separator. *)
Definition cut (sep : ascii) (s : string) : list string := cut_go sep EmptyString s.

Definition in_range (lo hi x : Z) : bool := (lo <=? x) && (x <=? hi).

(** ["YYYY/MM/DD HH:MM:SS.f"], [f] of one to six digits. *)
Definition demo_strptime (s fmt : string) : result datetime :=
  let bad := Raise (ValueError "time data does not match format") in
  match cut " " s with
  | [date; time] =>
      match cut "/" date, cut ":" time with
      | [y; m; d], [hh; mm; ss] =>
          match cut "." ss with
          | [sec; frac] =>
              match number y, number m, number d, number hh, number mm,
                    number sec, number frac with
              | Some y, Some m, Some d, Some hh, Some mm, Some sec, Some f =>
                  let n := String.length frac in
                  if in_range 1 9999 y && in_range 1 12 m
                     && in_range 1 (days_in_month y m) d
                     && in_range 0 23 hh && in_range 0 59 mm && in_range 0 59 sec
                     && (n <=? 6)%nat
                  then Ok (mk_datetime y m d hh mm sec (f * 10 ^ Z.of_nat (6 - n)))
                  else bad
              | _, _, _, _, _, _, _ => bad
              end
          | _ => bad
          end
      | _, _ => bad
      end
  | _ => bad
  end.

(** ["[-]digits.digits"] *)
Definition demo_float (s : string) : result float :=
  let bad := Raise (ValueError "could not convert string to float") in
  let '(neg, body) :=
    match s with
    | String "-" s' => (true, s')
    | _ => (false, s)
    end in
  match cut "." body with
  | [ip; fp] =>
      match number ip, number fp with
      | Some i, Some f =>
          let k := String.length fp in
          let n := i * 10 ^ Z.of_nat k + f in
          Ok (decimal (if neg then - n else n) k)
      | _, _ => bad
      end
  | _ => bad
  end.

#[local] Instance demo_runtime : Runtime := {
  strptime := demo_strptime;
  float_of_str := demo_float;
  utcoffset := fun _ => 7200
}.

(** The two coordinates of the repository's tests. *)
Definition lat_ny : float := decimal 40712776 6.
Definition lon_ny : float := decimal (-74005974) 6.

(** ** The nearest sample, as a function *)

(** Distance in time from a sample to an integer target. *)
Definition time_gap (t : Z) (x : sample) : Z := Z.abs (s_time x - t).

(** The first item of [best :: items] with the least measure. *)
Fixpoint first_min {A} (d : A -> Z) (items : list A) (best : A) : A :=
  match items with
  | [] => best
  | x :: rest => if d x <? d best then first_min d rest x else first_min d rest best
  end.

(** ** Well-formed manifests *)

(** A FrameEntry [[index, timestamp]] with an integer timestamp. *)
Definition frame_entry (e : pyval * Z) : pyval := VList [e.1; VInt e.2].

(** A manifest: the frame entries under ["timestamps"], and whatever other
    fields [meta] holds. *)
Definition manifest (meta : gmap string pyval) (entries : list (pyval * Z)) : pyval :=
  VDict (<["timestamps" := VList (frame_entry <$> entries)]> meta).

(** ** Associations, by their fields *)

Record assoc_fields : Type := {
  a_index : pyval;
  a_timestamp : pyval;
  a_latitude : pyval;
  a_longitude : pyval
}.

(** The dict [a] holds the four fields [q] (and maybe more). *)
Definition has_fields (a : gmap string pyval) (q : assoc_fields) : Prop :=
  a !! "index" = Some (a_index q) /\
  a !! "timestamp" = Some (a_timestamp q) /\
  a !! "latitude" = Some (a_latitude q) /\
  a !! "longitude" = Some (a_longitude q).

Definition feature_of (q : assoc_fields) : pyval :=
  point_feature (a_index q) (a_timestamp q) (a_latitude q) (a_longitude q).

(** ** Lines of the position log *)

(** A line of white space only (the empty line included). *)
Definition blank (line : string) : bool :=
  forallb is_space (list_ascii_of_string line).

(** A line of the data section that is neither a comment nor blank. *)
Definition data_line (line : string) : bool :=
  negb (startswith "%" line || blank line).

(** ** The contract of the time normaliser, in the specification's words *)

(** [floor(seconds_since_epoch) * 1e9 + microsecond_component * 1000] *)
Definition contract_nanos {rt : Runtime} (dt : datetime) : Z :=
  (utc_seconds dt - utcoffset dt) * 10 ^ 9 + microsecond dt * 1000.

(** ** A folder for the examples *)

(** The line feed that ends a line read by [readlines]. *)
Definition nl : string := String "010" EmptyString.

(** A position log: a header, the marker, two fixes, a blank line and a
    comment between them. *)
Definition demo_pos_lines : list string :=
  [ "% program : RTKLIB" +:+ nl;
    "%  GPST          latitude(deg) longitude(deg)" +:+ nl;
    "2024/01/01 00:00:00.000 40.712776 -74.005974" +:+ nl;
    "   " +:+ nl;
    "% a comment" +:+ nl;
    "2024/01/01 00:01:00.000 40.712776 -74.005974" +:+ nl ].

(** The track of that log. *)
Definition demo_track : list sample :=
  [ (1704060000000000000, lat_ny, lon_ny); (1704060060000000000, lat_ny, lon_ny) ].

(** A folder [d]: two sound manifests, [b.json] and [c.json], around one
    without frames, [a.json], and the position log. *)
Definition demo_fs : filesystem := {|
  listdir := fun folder =>
    if String.eqb folder "d" then Ok ["b.json"; "a.json"; "c.json"; "track.pos"]
    else Raise (FileNotFoundError "No such file or directory");
  readlines := fun path =>
    if String.eqb path "d/track.pos" then Some demo_pos_lines else None;
  json_load := fun path =>
    if String.eqb path "d/a.json" then Some (manifest ∅ [])
    else if String.eqb path "d/b.json" then
      Some (manifest ∅ [(VInt 0, 1704060000000000000)])
    else if String.eqb path "d/c.json" then
      Some (manifest ∅ [(VInt 0, 1704060060000000000)])
    else None;
  write_ok := fun _ _ => true
|}.

(** A finite, non-zero binary64 number of magnitude below [2^1023] (so
    that doubling it stays finite), in canonical form. *)
Definition ordinary (x : float) : bool :=
  match x with
  | S754_finite _ m e => bounded prec emax m e && (e <? emax - prec)
  | _ => false
  end.

(** ** Definitions for the further properties *)

(** A sample moved in time by [delta]. *)
Definition shift_sample (delta : Z) (x : sample) : sample :=
  (s_time x + delta, s_lat x, s_lon x).

(** The first of the keys read by the [features] comprehension, in the
    order it reads them, that an association lacks. *)
Definition first_missing (assoc : gmap string pyval) : option string :=
  if negb (has_key "longitude" assoc) then Some "longitude"
  else if negb (has_key "latitude" assoc) then Some "latitude"
  else if negb (has_key "index" assoc) then Some "index"
  else if negb (has_key "timestamp" assoc) then Some "timestamp"
  else None.

(** The name under which [process_files] writes the document of the
    manifest at position [index] of the listing. *)
Definition output_name (output_file : string) (index : nat) : string :=
  output_file +:+ "_" +:+ str_of_nat index +:+ ".json".

(** A folder whose position log has no marker line. *)
Definition unmarked_fs : filesystem := {|
  listdir := fun _ => Ok ["m.json"; "t.pos"];
  readlines := fun path =>
    if String.eqb path "u/t.pos"
    then Some ["2024/01/01 00:00:00.000 40.712776 -74.005974" +:+ nl]
    else None;
  json_load := fun _ => Some (manifest ∅ [(VInt 0, 1704060000000000000)]);
  write_ok := fun _ _ => true
|}.

(** A folder whose second manifest cannot be decoded. *)
Definition broken_fs : filesystem := {|
  listdir := fun _ => Ok ["b.json"; "x.json"; "c.json"; "track.pos"];
  readlines := fun path =>
    if String.eqb path "d/track.pos" then Some demo_pos_lines else None;
  json_load := fun path =>
    if String.eqb path "d/b.json" then
      Some (manifest ∅ [(VInt 0, 1704060000000000000)])
    else if String.eqb path "d/c.json" then
      Some (manifest ∅ [(VInt 0, 1704060060000000000)])
    else None;
  write_ok := fun _ _ => true
|}.

(** A folder in which every manifest is sound.  Nothing can be written
    under [no_such_dir/], a directory that does not exist. *)
Definition sound_fs : filesystem := {|
  listdir := fun _ => Ok ["b.json"; "notes.txt"; "c.json"; "track.pos"];
  readlines := fun path =>
    if String.eqb path "d/track.pos" then Some demo_pos_lines else None;
  json_load := fun _ => Some (manifest ∅ [(VInt 0, 1704060000000000000)]);
  write_ok := fun path _ => negb (startswith "no_such_dir/" path)
|}.

(** * Properties *)

(** ** Nearest-in-time search *)

Section FirstMin.
Context {A : Type} (d : A -> Z).

(** [first_min] keeps the invariant of the scan: [best] is the earliest
    least item of what was read, and stays so to the end. *)
Lemma first_min_scan (items pre : list A) (best : A) (kb : nat) :
  pre !! kb = Some best ->
  (forall j y, pre !! j = Some y -> d best <= d y) ->
  (forall j y, (j < kb)%nat -> pre !! j = Some y -> d best < d y) ->
  exists k,
    (pre ++ items) !! k = Some (first_min d items best) /\
    (forall j y, (pre ++ items) !! j = Some y -> d (first_min d items best) <= d y) /\
    (forall j y, (j < k)%nat -> (pre ++ items) !! j = Some y ->
                 d (first_min d items best) < d y).
Proof.
  revert pre best kb.
  induction items as [|x rest IH]; intros pre best kb Hkb Hle Hlt.
  - rewrite app_nil_r. exists kb. auto.
  - replace (pre ++ x :: rest) with ((pre ++ [x]) ++ rest)
      by (rewrite <- app_assoc; reflexivity).
    simpl. destruct (Z.ltb_spec (d x) (d best)) as [Hx|Hx].
    + apply (IH (pre ++ [x]) x (length pre)).
      * rewrite lookup_app_r by lia.
        replace (length pre - length pre)%nat with 0%nat by lia. reflexivity.
      * intros j y Hj. apply lookup_app_Some in Hj as [Hj|[Hge Hj]].
        -- specialize (Hle j y Hj). lia.
        -- destruct (j - length pre)%nat; simpl in Hj; [|done].
           inversion Hj; subst. lia.
      * intros j y Hjl Hj. rewrite lookup_app_l in Hj by lia.
        specialize (Hle j y Hj). lia.
    + apply (IH (pre ++ [x]) best kb).
      * apply lookup_app_l_Some. exact Hkb.
      * intros j y Hj. apply lookup_app_Some in Hj as [Hj|[Hge Hj]].
        -- eauto.
        -- destruct (j - length pre)%nat; simpl in Hj; [|done].
           inversion Hj; subst. lia.
      * intros j y Hjl Hj.
        assert (j < length pre)%nat
          by (apply lookup_lt_Some in Hkb; lia).
        rewrite lookup_app_l in Hj by lia. eauto.
Qed.

(** The scan of a whole list from its head. *)
Lemma first_min_head (x : A) (rest : list A) :
  exists k,
    (x :: rest) !! k = Some (first_min d rest x) /\
    (forall j y, (x :: rest) !! j = Some y -> d (first_min d rest x) <= d y) /\
    (forall j y, (j < k)%nat -> (x :: rest) !! j = Some y ->
                 d (first_min d rest x) < d y).
Proof.
  apply (first_min_scan rest [x] x 0).
  - reflexivity.
  - intros [|j] y Hj; simpl in Hj; [|done]. inversion Hj; subst. lia.
  - intros j y Hj. lia.
Qed.
End FirstMin.

(** On an integer target the key is the time gap and never raises. *)
Lemma time_distance_int (t : Z) (x : sample) :
  time_distance (VInt t) x = Ok (NInt (time_gap t x)).
Proof. reflexivity. Qed.

Lemma min_loop_first_min (t : Z) (items : list sample) (best : sample) :
  min_loop (time_distance (VInt t)) items best (NInt (time_gap t best))
  = Ok (first_min (time_gap t) items best).
Proof.
  revert best. induction items as [|x rest IH]; intros best; simpl.
  - reflexivity.
  - fold (time_gap t x). destruct (time_gap t x <? time_gap t best); apply IH.
Qed.

(** On a non-empty track and an integer target the search returns, and
    what it returns is [first_min]. *)
Lemma closest_sample_first_min (t : Z) (x : sample) (rest : list sample) :
  closest_sample (Some (x :: rest)) (VInt t) = Ok (first_min (time_gap t) rest x).
Proof. simpl. apply min_loop_first_min. Qed.

Lemma find_closest_of_closest pos_data target x :
  closest_sample pos_data target = Ok x ->
  find_closest_timestamp pos_data target = Ok (s_lat x, s_lon x).
Proof. unfold find_closest_timestamp. intros ->. reflexivity. Qed.

(** The full characterisation: the sample selected is the earliest one at
    the least distance. *)
Lemma closest_sample_earliest_least (pos : list sample) (t : Z) :
  pos <> [] ->
  exists k x,
    pos !! k = Some x /\
    closest_sample (Some pos) (VInt t) = Ok x /\
    (forall j y, pos !! j = Some y -> time_gap t x <= time_gap t y) /\
    (forall j y, (j < k)%nat -> pos !! j = Some y -> time_gap t x < time_gap t y).
Proof.
  destruct pos as [|x rest]; [done|]. intros _.
  destruct (first_min_head (time_gap t) x rest) as (k & Hk & Hle & Hlt).
  exists k, (first_min (time_gap t) rest x).
  split; [exact Hk|]. split; [apply closest_sample_first_min|]. auto.
Qed.

(** C1. For every non-empty track and every integer target timestamp,
    [find_closest_timestamp] returns the coordinates of a sample of the
    track whose distance in time to the target is at most that of every
    sample of the track. *)
Theorem find_closest_global_minimum (pos : list sample) (t : Z) :
  pos <> [] ->
  exists x,
    x ∈ pos /\
    find_closest_timestamp (Some pos) (VInt t) = Ok (s_lat x, s_lon x) /\
    forall y, y ∈ pos -> Z.abs (s_time x - t) <= Z.abs (s_time y - t).
Proof.
  intros Hne.
  destruct (closest_sample_earliest_least pos t Hne) as (k & x & Hk & Hx & Hle & _).
  exists x. split; [|split].
  - apply list_elem_of_lookup. eauto.
  - apply find_closest_of_closest, Hx.
  - intros y Hy. apply list_elem_of_lookup in Hy as [j Hj]. apply (Hle j y Hj).
Qed.

Lemma find_closest_global_minimum_witness :
  exists x,
    x ∈ [(10, lat_ny, lon_ny); (70, lon_ny, lat_ny)] /\
    find_closest_timestamp (Some [(10, lat_ny, lon_ny); (70, lon_ny, lat_ny)]) (VInt 50)
    = Ok (s_lat x, s_lon x) /\
    forall y, y ∈ [(10, lat_ny, lon_ny); (70, lon_ny, lat_ny)] ->
              Z.abs (s_time x - 50) <= Z.abs (s_time y - 50).
Proof.
  apply (find_closest_global_minimum [(10, lat_ny, lon_ny); (70, lon_ny, lat_ny)] 50).
  discriminate.
Defined.

(** C3. On an empty track the search raises (the [ValueError] of [min] on
    an empty sequence), whatever the target; it never returns a
    coordinate.  So does the association of a manifest that has a frame. *)
Theorem find_closest_empty_track_raises (target : pyval) :
  find_closest_timestamp (Some []) target
  = Raise (ValueError "min() arg is an empty sequence")
  /\ (forall coords, find_closest_timestamp (Some []) target <> Ok coords)
  /\ (forall meta e entries,
        associate_timestamps_with_gps (manifest meta (e :: entries)) (Some [])
        = Raise (ValueError "min() arg is an empty sequence")).
Proof.
  split; [reflexivity|]. split; [discriminate|].
  intros meta e entries. unfold associate_timestamps_with_gps, manifest. simpl.
  rewrite lookup_insert_eq. reflexivity.
Qed.

(** C5. Tie-break: when two samples of the track are at the same distance
    from the target, the search never selects the later of the two: the
    sample it returns is the earliest one at the least distance.  If the
    earlier of the pair is such a sample, it is the one returned. *)
Theorem find_closest_tie_break (pos : list sample) (t : Z) (i j : nat) (xi xj : sample) :
  pos !! i = Some xi ->
  pos !! j = Some xj ->
  (i < j)%nat ->
  Z.abs (s_time xi - t) = Z.abs (s_time xj - t) ->
  exists k x,
    pos !! k = Some x /\
    closest_sample (Some pos) (VInt t) = Ok x /\
    find_closest_timestamp (Some pos) (VInt t) = Ok (s_lat x, s_lon x) /\
    k <> j /\
    (forall m y, (m < k)%nat -> pos !! m = Some y ->
                 Z.abs (s_time x - t) < Z.abs (s_time y - t)) /\
    (forall m y, pos !! m = Some y -> Z.abs (s_time x - t) <= Z.abs (s_time y - t)) /\
    ((forall m y, pos !! m = Some y -> Z.abs (s_time xi - t) <= Z.abs (s_time y - t)) ->
     (forall m y, (m < i)%nat -> pos !! m = Some y ->
                  Z.abs (s_time xi - t) < Z.abs (s_time y - t)) ->
     k = i /\ x = xi).
Proof.
  intros Hi Hj Hij Htie.
  assert (Hne : pos <> []) by (intros ->; done).
  destruct (closest_sample_earliest_least pos t Hne) as (k & x & Hk & Hx & Hle & Hlt).
  unfold time_gap in Hle, Hlt.
  exists k, x.
  split; [exact Hk|]. split; [exact Hx|].
  split; [apply find_closest_of_closest, Hx|].
  split; [|split; [exact Hlt|split; [exact Hle|]]].
  - intros ->. specialize (Hlt i xi Hij Hi).
    rewrite Hk in Hj. inversion Hj; subst. lia.
  - intros Hnear Hfirst.
    assert (Hki : k = i).
    { destruct (Nat.lt_trichotomy k i) as [Hlt'|[Heq|Hgt]]; [|exact Heq|].
      - specialize (Hfirst k x Hlt' Hk). specialize (Hle i xi Hi). lia.
      - specialize (Hlt i xi Hgt Hi). specialize (Hnear k x Hk). lia. }
    split; [exact Hki|]. subst k. congruence.
Qed.

Lemma find_closest_tie_break_witness :
  exists k x,
    [(0, lat_ny, lon_ny); (60, lon_ny, lat_ny)] !! k = Some x /\
    closest_sample (Some [(0, lat_ny, lon_ny); (60, lon_ny, lat_ny)]) (VInt 30) = Ok x /\
    find_closest_timestamp (Some [(0, lat_ny, lon_ny); (60, lon_ny, lat_ny)]) (VInt 30)
    = Ok (s_lat x, s_lon x) /\
    k <> 1%nat /\
    (forall m y, (m < k)%nat -> [(0, lat_ny, lon_ny); (60, lon_ny, lat_ny)] !! m = Some y ->
                 Z.abs (s_time x - 30) < Z.abs (s_time y - 30)) /\
    (forall m y, [(0, lat_ny, lon_ny); (60, lon_ny, lat_ny)] !! m = Some y ->
                 Z.abs (s_time x - 30) <= Z.abs (s_time y - 30)) /\
    ((forall m y, [(0, lat_ny, lon_ny); (60, lon_ny, lat_ny)] !! m = Some y ->
                  Z.abs (s_time (0, lat_ny, lon_ny) - 30) <= Z.abs (s_time y - 30)) ->
     (forall m y, (m < 0)%nat ->
                  [(0, lat_ny, lon_ny); (60, lon_ny, lat_ny)] !! m = Some y ->
                  Z.abs (s_time (0, lat_ny, lon_ny) - 30) < Z.abs (s_time y - 30)) ->
     k = 0%nat /\ x = (0, lat_ny, lon_ny)).
Proof.
  apply (find_closest_tie_break [(0, lat_ny, lon_ny); (60, lon_ny, lat_ny)] 30 0 1
           (0, lat_ny, lon_ny) (60, lon_ny, lat_ny)).
  - reflexivity.
  - reflexivity.
  - lia.
  - reflexivity.
Defined.

(** ** The associator *)

(** What the loop appends for well-formed entries: one association per
    entry, after those already built. *)
Lemma associate_loop_entries (pos : list sample) (entries : list (pyval * Z))
    (acc : list (gmap string pyval)) :
  pos <> [] ->
  exists out,
    associate_loop (frame_entry <$> entries) (Some pos) acc = Ok (acc ++ out) /\
    Forall2 (fun e a => exists lat lon,
               find_closest_timestamp (Some pos) (VInt e.2) = Ok (lat, lon) /\
               a = association e.1 (VInt e.2) lat lon) entries out.
Proof.
  intros Hne. revert acc.
  induction entries as [|e rest IH]; intros acc.
  - exists []. rewrite app_nil_r. split; [reflexivity|constructor].
  - destruct (closest_sample_earliest_least pos e.2 Hne) as (k & x & _ & Hx & _).
    apply find_closest_of_closest in Hx.
    destruct (IH (acc ++ [association e.1 (VInt e.2) (s_lat x) (s_lon x)]))
      as (out & Hout & Hall).
    exists (association e.1 (VInt e.2) (s_lat x) (s_lon x) :: out). split.
    + cbn [fmap list_fmap associate_loop frame_entry subscript_idx
             lookup list_lookup mbind result_bind].
      rewrite Hx. cbn [mbind result_bind fst snd].
      rewrite Hout, <- app_assoc. reflexivity.
    + constructor; [|exact Hall]. exists (s_lat x), (s_lon x). auto.
Qed.

Lemma association_index i t lat lon : association i t lat lon !! "index" = Some i.
Proof. unfold association. apply lookup_insert_eq. Qed.

Lemma association_timestamp i t lat lon : association i t lat lon !! "timestamp" = Some t.
Proof.
  unfold association. rewrite lookup_insert_ne by done. apply lookup_insert_eq.
Qed.

Lemma association_latitude i t lat lon :
  association i t lat lon !! "latitude" = Some (VFloat lat).
Proof.
  unfold association. do 2 rewrite lookup_insert_ne by done. apply lookup_insert_eq.
Qed.

Lemma association_longitude i t lat lon :
  association i t lat lon !! "longitude" = Some (VFloat lon).
Proof.
  unfold association. do 3 rewrite lookup_insert_ne by done. apply lookup_insert_eq.
Qed.

(** C8. For every manifest and non-empty track the associator returns one
    association per frame entry, in the order of the entries; the k-th
    one carries the index and the timestamp of the k-th entry unchanged,
    with the coordinates of the sample nearest to that timestamp. *)
Theorem associate_one_per_frame_in_order (meta : gmap string pyval)
    (entries : list (pyval * Z)) (pos : list sample) :
  pos <> [] ->
  exists associations,
    associate_timestamps_with_gps (manifest meta entries) (Some pos) = Ok associations /\
    length associations = length entries /\
    forall k e, entries !! k = Some e ->
      exists a lat lon,
        associations !! k = Some a /\
        a !! "index" = Some e.1 /\
        a !! "timestamp" = Some (VInt e.2) /\
        find_closest_timestamp (Some pos) (VInt e.2) = Ok (lat, lon) /\
        a = association e.1 (VInt e.2) lat lon.
Proof.
  intros Hne.
  destruct (associate_loop_entries pos entries [] Hne) as (out & Hout & Hall).
  exists out. split; [|split].
  - unfold associate_timestamps_with_gps, manifest.
    cbn [subscript_key]. rewrite lookup_insert_eq.
    cbn [mbind result_bind py_iter]. exact Hout.
  - symmetry. eapply Forall2_length, Hall.
  - intros k e Hk.
    destruct (Forall2_lookup_l _ _ _ _ _ Hall Hk) as (a & Ha & lat & lon & Hc & ->).
    exists (association e.1 (VInt e.2) lat lon), lat, lon.
    split; [exact Ha|]. split; [apply association_index|].
    split; [apply association_timestamp|]. auto.
Qed.

Lemma associate_one_per_frame_in_order_witness :
  exists associations,
    associate_timestamps_with_gps
      (manifest ∅ [(VInt 0, 10); (VInt 1, 70)]) (Some [(10, lat_ny, lon_ny)])
    = Ok associations /\
    length associations = length [(VInt 0, 10); (VInt 1, 70)] /\
    forall k e, [(VInt 0, 10); (VInt 1, 70)] !! k = Some e ->
      exists a lat lon,
        associations !! k = Some a /\
        a !! "index" = Some e.1 /\
        a !! "timestamp" = Some (VInt e.2) /\
        find_closest_timestamp (Some [(10, lat_ny, lon_ny)]) (VInt e.2) = Ok (lat, lon) /\
        a = association e.1 (VInt e.2) lat lon.
Proof.
  apply (associate_one_per_frame_in_order ∅ [(VInt 0, 10); (VInt 1, 70)]
           [(10, lat_ny, lon_ny)]).
  discriminate.
Defined.

(** ** The centroid *)

Lemma int_to_float_0 : int_to_float 0 = Ok (S754_zero false).
Proof. vm_compute. reflexivity. Qed.

Lemma int_to_float_small (n : Z) :
  0 <= n < 2 ^ 63 -> int_to_float n = Ok (float_of_Z n).
Proof.
  intros [Hlo Hhi]. unfold int_to_float.
  assert (Hb : 2 ^ 63 < 2 ^ 1024 - 2 ^ 970) by (vm_compute; reflexivity).
  assert (Hlt : Z.abs n < 2 ^ 1024 - 2 ^ 970).
  { rewrite Z.abs_eq by exact Hlo. eapply Z.lt_trans; eassumption. }
  apply Z.ltb_lt in Hlt. rewrite Hlt. reflexivity.
Qed.

(** Adding floats to a float accumulator is a left fold of [fadd]. *)
Lemma sum_from_floats (xs : list float) (acc : float) :
  sum_from (NFloat acc) (VFloat <$> xs) = Ok (NFloat (fold_left fadd xs acc)).
Proof.
  revert acc. induction xs as [|x xs IH]; intros acc; simpl.
  - reflexivity.
  - apply IH.
Qed.

(** [sum] of a list of floats: the fold from the float of the int 0. *)
Lemma py_sum_floats (xs : list float) :
  xs <> [] ->
  py_sum (VFloat <$> xs) = Ok (NFloat (fold_left fadd xs (S754_zero false))).
Proof.
  destruct xs as [|x xs]; [done|]. intros _.
  unfold py_sum. cbn [fmap list_fmap sum_from as_num mbind result_bind num_add].
  rewrite int_to_float_0. cbn [mbind result_bind fold_left]. apply sum_from_floats.
Qed.

Lemma truediv_by_length (s : float) (n : nat) :
  (0 < n)%nat -> Z.of_nat n < 2 ^ 63 ->
  num_truediv (NFloat s) (NInt (Z.of_nat n)) = Ok (fdiv s (float_of_Z (Z.of_nat n))).
Proof.
  intros Hpos Hlt. unfold num_truediv.
  rewrite int_to_float_small by lia. cbn [mbind result_bind].
  destruct (Z.eqb_spec (Z.of_nat n) 0); [lia|reflexivity].
Qed.

Lemma dict_get_item_Some (d : gmap string pyval) (key : string) (v : pyval) :
  d !! key = Some v -> dict_get_item d key = Ok v.
Proof. unfold dict_get_item. intros ->. reflexivity. Qed.

(** The comprehension [[loc[key] for loc in locations]] when every
    location holds a float under [key]. *)
Lemma mapM_get_floats (key : string) (locs : list (gmap string pyval)) (xs : list float) :
  Forall2 (fun loc x => loc !! key = Some (VFloat x)) locs xs ->
  mapM (fun loc => dict_get_item loc key) locs = Ok (VFloat <$> xs).
Proof.
  induction 1 as [|loc x locs xs Hx _ IH]; [reflexivity|].
  cbn [mapM mbind result_bind].
  rewrite (dict_get_item_Some _ _ _ Hx), IH. reflexivity.
Qed.

Lemma has_keys_of_floats (locs : list (gmap string pyval)) (lats lons : list float) :
  Forall2 (fun loc x => loc !! "latitude" = Some (VFloat x)) locs lats ->
  Forall2 (fun loc x => loc !! "longitude" = Some (VFloat x)) locs lons ->
  forallb (fun loc => has_key "latitude" loc && has_key "longitude" loc) locs = true.
Proof.
  intros Hlat. revert lons.
  induction Hlat as [|loc x locs xs Hx _ IH]; intros lons Hlon; [reflexivity|].
  inversion Hlon as [|? y ? ys Hy Hrest]; subst. simpl.
  unfold has_key at 1 2. rewrite Hx, Hy. simpl. eapply IH, Hrest.
Qed.

Lemma missing_key_detected (locs : list (gmap string pyval)) (loc : gmap string pyval) :
  loc ∈ locs ->
  loc !! "latitude" = None \/ loc !! "longitude" = None ->
  forallb (fun loc => has_key "latitude" loc && has_key "longitude" loc) locs = false.
Proof.
  intros Hin Hmiss. apply not_true_is_false. intros Hall.
  rewrite forallb_forall in Hall.
  apply list_elem_of_In in Hin. specialize (Hall loc Hin).
  apply andb_prop in Hall as [Hla Hlo]. unfold has_key in Hla, Hlo.
  destruct Hmiss as [Hm|Hm]; rewrite Hm in *; discriminate.
Qed.

(** On locations that all hold float coordinates the centroid is the pair
    of the two means. *)
Lemma calculate_centroid_floats (locs : list (gmap string pyval)) (lats lons : list float) :
  locs <> [] ->
  Z.of_nat (length locs) < 2 ^ 63 ->
  Forall2 (fun loc x => loc !! "latitude" = Some (VFloat x)) locs lats ->
  Forall2 (fun loc x => loc !! "longitude" = Some (VFloat x)) locs lons ->
  calculate_centroid locs = Ok (float_mean lats, float_mean lons).
Proof.
  intros Hne Hlen Hlat Hlon.
  pose proof (Forall2_length _ _ _ Hlat) as Hl1.
  pose proof (Forall2_length _ _ _ Hlon) as Hl2.
  assert (Hlats : lats <> []) by (destruct locs, lats; done).
  assert (Hlons : lons <> []) by (destruct locs, lons; done).
  unfold calculate_centroid.
  destruct locs as [|loc0 locs0] eqn:Hlocs; [done|]. cbn [is_nil]. rewrite <- Hlocs in *.
  rewrite (has_keys_of_floats locs lats lons Hlat Hlon). cbn [negb].
  rewrite (mapM_get_floats "latitude" locs lats Hlat).
  rewrite (mapM_get_floats "longitude" locs lons Hlon).
  cbn [mbind result_bind].
  assert (Hn1 : is_nil (VFloat <$> lats) = false) by (destruct lats; done).
  assert (Hn2 : is_nil (VFloat <$> lons) = false) by (destruct lons; done).
  rewrite Hn1, Hn2. cbn [orb].
  rewrite (py_sum_floats lats Hlats), (py_sum_floats lons Hlons).
  cbn [mbind result_bind]. rewrite !length_fmap.
  assert (Hp1 : (0 < length lats)%nat) by (destruct lats; [done|cbn [length]; lia]).
  assert (Hp2 : (0 < length lons)%nat) by (destruct lons; [done|cbn [length]; lia]).
  rewrite !truediv_by_length
    by (first [exact Hp1 | exact Hp2 | rewrite <- Hl1; exact Hlen
              | rewrite <- Hl2; exact Hlen]).
  reflexivity.
Qed.

(** C6. The centroid calculator raises on zero records (the ValueError
    that stands for EmptyInputError), raises when some record lacks a
    coordinate field, both of them in particular (the ValueError that
    stands for SchemaError), and otherwise, on records with float
    coordinates, returns the arithmetic mean of the latitudes and the
    arithmetic mean of the longitudes, each computed from its own
    list. *)
Theorem calculate_centroid_spec :
  calculate_centroid [] = Raise (ValueError "The list of locations is empty")
  /\ (forall locs loc,
        loc ∈ locs ->
        loc !! "latitude" = None \/ loc !! "longitude" = None ->
        calculate_centroid locs
        = Raise (ValueError "Each location must have 'latitude' and 'longitude' keys"))
  /\ (forall locs lats lons,
        locs <> [] ->
        Z.of_nat (length locs) < 2 ^ 63 ->
        Forall2 (fun loc x => loc !! "latitude" = Some (VFloat x)) locs lats ->
        Forall2 (fun loc x => loc !! "longitude" = Some (VFloat x)) locs lons ->
        calculate_centroid locs = Ok (float_mean lats, float_mean lons)).
Proof.
  split; [reflexivity|]. split.
  - intros locs loc Hin Hmiss. unfold calculate_centroid.
    destruct locs as [|loc0 locs0] eqn:Hlocs; [inversion Hin|].
    cbn [is_nil]. rewrite <- Hlocs in *.
    rewrite (missing_key_detected locs loc Hin Hmiss). reflexivity.
  - apply calculate_centroid_floats.
Qed.

Lemma calculate_centroid_spec_witness :
  calculate_centroid [latlon lat_ny lon_ny; ∅]
  = Raise (ValueError "Each location must have 'latitude' and 'longitude' keys")
  /\ calculate_centroid [latlon lat_ny lon_ny; latlon lon_ny lat_ny]
     = Ok (float_mean [lat_ny; lon_ny], float_mean [lon_ny; lat_ny]).
Proof.
  split.
  - apply (proj1 (proj2 calculate_centroid_spec) [latlon lat_ny lon_ny; ∅] ∅).
    + apply list_elem_of_In. simpl. auto.
    + left. reflexivity.
  - apply (proj2 (proj2 calculate_centroid_spec)
             [latlon lat_ny lon_ny; latlon lon_ny lat_ny]).
    + discriminate.
    + reflexivity.
    + repeat constructor.
    + repeat constructor.
Defined.

(** ** The centroid and the laws of the mean *)

(** *** In exact arithmetic *)

Lemma Qc_of_nat_nonneg (n : nat) : (Q2Qc 0 <= Qc_of_nat n)%Qc.
Proof.
  induction n as [|n IH]; simpl.
  - apply Qcle_refl.
  - replace (Q2Qc 0) with (Q2Qc 0 + Q2Qc 0)%Qc by ring.
    apply Qcplus_le_compat; [exact IH|]. discriminate.
Qed.

Lemma Qc_of_nat_S_neq (n : nat) : Qc_of_nat (S n) <> Q2Qc 0.
Proof.
  simpl. intros H.
  assert (Hle : (Q2Qc 0 + Q2Qc 1 <= Qc_of_nat n + Q2Qc 1)%Qc).
  { apply Qcplus_le_compat; [apply Qc_of_nat_nonneg|apply Qcle_refl]. }
  rewrite H in Hle. apply Hle. reflexivity.
Qed.

Lemma Qc_fold_repeat (x acc : Qc) (n : nat) :
  fold_left Qcplus (repeat x n) acc = (acc + Qc_of_nat n * x)%Qc.
Proof.
  revert acc. induction n as [|n IH]; intros acc; simpl.
  - ring.
  - rewrite IH. ring.
Qed.

Lemma Qc_fold_permutation (xs ys : list Qc) :
  Permutation xs ys -> forall acc, fold_left Qcplus xs acc = fold_left Qcplus ys acc.
Proof.
  induction 1 as [|x xs ys _ IH|x y xs|xs ys zs _ IH1 _ IH2]; intros acc; simpl.
  - reflexivity.
  - apply IH.
  - f_equal. ring.
  - rewrite IH1. apply IH2.
Qed.

(** *** In binary64 *)

Lemma fadd_comm (x y : float) : fadd x y = fadd y x.
Proof.
  destruct x as [sx|sx| |sx mx ex], y as [sy|sy| |sy my ey];
    try reflexivity; try (destruct sx, sy; reflexivity).
  unfold fadd, SFadd. rewrite (Z.min_comm ex ey). f_equal. apply Z.add_comm.
Qed.

(** The float of the int 0 is neutral up to the sign of zero, which the
    next addition forgets. *)
Lemma fadd_from_zero_swap (a b : float) :
  fadd (fadd (S754_zero false) a) b = fadd (fadd (S754_zero false) b) a.
Proof.
  destruct a as [sa|sa| |sa ma ea], b as [sb|sb| |sb mb eb];
    try reflexivity; try (destruct sa, sb; reflexivity);
    try (destruct sa; reflexivity); try (destruct sb; reflexivity).
  apply fadd_comm.
Qed.

Lemma float_mean_swap (a b : float) (rest : list float) :
  float_mean (a :: b :: rest) = float_mean (b :: a :: rest).
Proof.
  unfold float_mean, mean_with. cbn [fold_left length].
  rewrite fadd_from_zero_swap. reflexivity.
Qed.

(** *** Exact operations: [x / 1.0] and [(x + x) / 2.0] *)

Lemma float_of_Z_1 : float_of_Z 1 = S754_finite false 4503599627370496 (-52).
Proof. vm_compute. reflexivity. Qed.

Lemma fexp_eq (e : Z) : fexp prec emax e = Z.max (e - 53) (-1074).
Proof. reflexivity. Qed.

Lemma shr_fexp_keep (m : positive) (e : Z) :
  fexp prec emax (Z.pos (digits2_pos m) + e) = e ->
  shr_fexp prec emax (Z.pos m) e loc_Exact
  = ({| shr_m := Z.pos m; shr_r := false; shr_s := false |}, e).
Proof.
  intros H. unfold shr_fexp. cbn [Zdigits2]. rewrite H, Z.sub_diag. reflexivity.
Qed.

Lemma shr_fexp_halve (m : positive) (e : Z) :
  fexp prec emax (Z.pos (digits2_pos m~0) + e) = e + 1 ->
  shr_fexp prec emax (Z.pos m~0) e loc_Exact
  = ({| shr_m := Z.pos m; shr_r := false; shr_s := false |}, e + 1).
Proof.
  intros H. unfold shr_fexp. cbn [Zdigits2]. rewrite H.
  replace (e + 1 - e) with 1 by lia. reflexivity.
Qed.

Lemma binary_round_aux_keep (s : bool) (m : positive) (e : Z) :
  fexp prec emax (Z.pos (digits2_pos m) + e) = e ->
  e <= emax - prec ->
  binary_round_aux prec emax s (Z.pos m) e loc_Exact = S754_finite s m e.
Proof.
  intros Hc He. unfold binary_round_aux.
  rewrite (shr_fexp_keep m e Hc). cbn [shr_m loc_of_shr_record round_nearest_even].
  rewrite (shr_fexp_keep m e Hc). cbn [shr_m].
  apply Z.leb_le in He. rewrite He. reflexivity.
Qed.

Lemma binary_round_aux_halve (s : bool) (m : positive) (e : Z) :
  fexp prec emax (Z.pos (digits2_pos m~0) + e) = e + 1 ->
  fexp prec emax (Z.pos (digits2_pos m) + (e + 1)) = e + 1 ->
  e + 1 <= emax - prec ->
  binary_round_aux prec emax s (Z.pos m~0) e loc_Exact = S754_finite s m (e + 1).
Proof.
  intros Hh Hc He. unfold binary_round_aux.
  rewrite (shr_fexp_halve m e Hh). cbn [shr_m loc_of_shr_record round_nearest_even].
  rewrite (shr_fexp_keep m (e + 1) Hc). cbn [shr_m].
  apply Z.leb_le in He. rewrite He. reflexivity.
Qed.

Lemma div_eucl_exact (a b : Z) : 0 < b -> Z.div_eucl (a * b) b = (a, 0).
Proof.
  intros Hb. destruct (Z.div_eucl (a * b) b) as [q r] eqn:E.
  assert (Hq : q = a * b / b) by (unfold Z.div; rewrite E; reflexivity).
  assert (Hr : r = (a * b) mod b) by (unfold Z.modulo; rewrite E; reflexivity).
  rewrite Z.div_mul in Hq by lia. rewrite Z.mod_mul in Hr by lia. congruence.
Qed.

(** Division by the float of 1 is exact. *)
Lemma fdiv_one (sx : bool) (mx : positive) (ex : Z) :
  bounded prec emax mx ex = true ->
  fdiv (S754_finite sx mx ex) (float_of_Z 1) = S754_finite sx mx ex.
Proof.
  intros Hb. rewrite float_of_Z_1.
  unfold bounded, canonical_mantissa in Hb. apply andb_prop in Hb as [Hc He].
  apply Z.eqb_eq in Hc. apply Z.leb_le in He.
  pose proof Hc as Hc'. rewrite fexp_eq in Hc'.
  unfold fdiv, SFdiv, SFdiv_core_binary.
  cbn [Zdigits2].
  change (Z.pos (digits2_pos 4503599627370496)) with 53.
  rewrite fexp_eq. rewrite xorb_false_r.
  set (d := Z.pos (digits2_pos mx)) in *.
  assert (Hd : 0 < d) by (unfold d; lia).
  destruct (Z_lt_le_dec (-1074) ex) as [Hnorm|Hsub].
  - assert (Hd53 : d = 53) by lia.
    replace (Z.min (Z.max (d + ex - (53 + -52) - 53) (-1074)) (ex - -52)) with (ex - 1) by lia.
    replace (ex - -52 - (ex - 1)) with 53 by lia.
    rewrite Z.shiftl_mul_pow2 by lia.
    replace (Z.pos mx * 2 ^ 53) with (Z.pos mx~0 * 4503599627370496) by lia.
    rewrite div_eucl_exact by lia.
    change (new_location 4503599627370496 0) with loc_Exact.
    replace ex with (ex - 1 + 1) at 2 by lia.
    apply binary_round_aux_halve.
    + rewrite fexp_eq. cbn [digits2_pos]. rewrite Pos2Z.inj_succ. fold d. lia.
    + rewrite fexp_eq. fold d. lia.
    + unfold emax, prec in *. lia.
  - replace (Z.min (Z.max (d + ex - (53 + -52) - 53) (-1074)) (ex - -52)) with ex by lia.
    replace (ex - -52 - ex) with 52 by lia.
    rewrite Z.shiftl_mul_pow2 by lia.
    change (2 ^ 52) with 4503599627370496.
    rewrite div_eucl_exact by lia.
    change (new_location 4503599627370496 0) with loc_Exact.
    apply binary_round_aux_keep; [exact Hc|exact He].
Qed.


Lemma float_of_Z_2 : float_of_Z 2 = S754_finite false 4503599627370496 (-51).
Proof. vm_compute. reflexivity. Qed.

Lemma fadd_self (s : bool) (m : positive) (e : Z) :
  bounded prec emax m e = true ->
  e < emax - prec ->
  fadd (S754_finite s m e) (S754_finite s m e)
  = if Z.ltb (-1074) e || Z.eqb (Z.pos (digits2_pos m)) 53
    then S754_finite s m (e + 1) else S754_finite s m~0 e.
Proof.
  intros Hb Hlt.
  unfold bounded, canonical_mantissa in Hb. apply andb_prop in Hb as [Hc He].
  apply Z.eqb_eq in Hc. apply Z.leb_le in He.
  pose proof Hc as Hc'. rewrite fexp_eq in Hc'.
  unfold fadd, SFadd. rewrite Z.min_id.
  unfold shl_align. rewrite Z.sub_diag. cbn [fst].
  assert (Hsum : cond_Zopp s (Z.pos m) + cond_Zopp s (Z.pos m)
                 = if s then Z.neg m~0 else Z.pos m~0) by (destruct s; cbn [cond_Zopp Z.opp]; lia).
  rewrite Hsum.
  assert (Hn : binary_normalize prec emax (if s then Z.neg m~0 else Z.pos m~0) e false
               = binary_round prec emax s m~0 e) by (destruct s; reflexivity).
  rewrite Hn. unfold binary_round.
  set (d := Z.pos (digits2_pos m)) in *.
  assert (Hd2 : Z.pos (digits2_pos m~0) = d + 1)
    by (cbn [digits2_pos]; rewrite Pos2Z.inj_succ; reflexivity).
  rewrite Hd2, fexp_eq.
  assert (Hd : 0 < d) by (unfold d; lia).
  destruct (Z.ltb_spec (-1074) e) as [Hnorm|Hsub]; cbn [orb].
  - assert (Hd53 : d = 53) by lia.
    replace (Z.max (d + 1 + e - 53) (-1074)) with (e + 1) by lia.
    unfold shl_align. replace (e + 1 - e) with 1 by lia.
    apply binary_round_aux_halve.
    + rewrite Hd2, fexp_eq. lia.
    + fold d. rewrite fexp_eq. lia.
    + lia.
  - destruct (Z.eqb_spec d 53) as [Hd53|Hd53].
    + replace (Z.max (d + 1 + e - 53) (-1074)) with (e + 1) by lia.
      unfold shl_align. replace (e + 1 - e) with 1 by lia.
      apply binary_round_aux_halve.
      * rewrite Hd2, fexp_eq. lia.
      * fold d. rewrite fexp_eq. lia.
      * lia.
    + replace (Z.max (d + 1 + e - 53) (-1074)) with e by lia.
      unfold shl_align. rewrite Z.sub_diag.
      apply binary_round_aux_keep.
      * rewrite Hd2, fexp_eq. lia.
      * exact He.
Qed.

Lemma fdiv_two_normal (s : bool) (m : positive) (e : Z) :
  bounded prec emax m e = true ->
  Z.pos (digits2_pos m) = 53 ->
  fdiv (S754_finite s m (e + 1)) (float_of_Z 2) = S754_finite s m e.
Proof.
  intros Hb Hd53. rewrite float_of_Z_2.
  unfold bounded, canonical_mantissa in Hb. apply andb_prop in Hb as [Hc He].
  apply Z.eqb_eq in Hc. apply Z.leb_le in He.
  pose proof Hc as Hc'. rewrite fexp_eq in Hc'.
  unfold fdiv, SFdiv, SFdiv_core_binary. cbn [Zdigits2].
  change (Z.pos (digits2_pos 4503599627370496)) with 53.
  rewrite fexp_eq, xorb_false_r, Hd53. rewrite Hd53 in Hc'.
  destruct (Z_lt_le_dec (-1074) e) as [Hnorm|Hsub].
  - replace (Z.min (Z.max (53 + (e + 1) - (53 + -51) - 53) (-1074)) (e + 1 - -51))
      with (e - 1) by lia.
    replace (e + 1 - -51 - (e - 1)) with 53 by lia.
    rewrite Z.shiftl_mul_pow2 by lia.
    replace (Z.pos m * 2 ^ 53) with (Z.pos m~0 * 4503599627370496) by lia.
    rewrite div_eucl_exact by lia.
    change (new_location 4503599627370496 0) with loc_Exact.
    replace e with (e - 1 + 1) at 2 by lia.
    apply binary_round_aux_halve.
    + rewrite fexp_eq. cbn [digits2_pos]. rewrite Pos2Z.inj_succ, Hd53. lia.
    + rewrite fexp_eq, Hd53. lia.
    + unfold emax, prec in *. lia.
  - replace (Z.min (Z.max (53 + (e + 1) - (53 + -51) - 53) (-1074)) (e + 1 - -51))
      with e by lia.
    replace (e + 1 - -51 - e) with 52 by lia.
    rewrite Z.shiftl_mul_pow2 by lia.
    change (2 ^ 52) with 4503599627370496.
    rewrite div_eucl_exact by lia.
    change (new_location 4503599627370496 0) with loc_Exact.
    apply binary_round_aux_keep; [exact Hc|exact He].
Qed.

Lemma fdiv_two_subnormal (s : bool) (m : positive) (e : Z) :
  bounded prec emax m e = true ->
  Z.pos (digits2_pos m) <> 53 ->
  fdiv (S754_finite s m~0 e) (float_of_Z 2) = S754_finite s m e.
Proof.
  intros Hb Hd53. rewrite float_of_Z_2.
  unfold bounded, canonical_mantissa in Hb. apply andb_prop in Hb as [Hc He].
  apply Z.eqb_eq in Hc. apply Z.leb_le in He.
  pose proof Hc as Hc'. rewrite fexp_eq in Hc'.
  unfold fdiv, SFdiv, SFdiv_core_binary. cbn [Zdigits2].
  change (Z.pos (digits2_pos 4503599627370496)) with 53.
  assert (Hd2 : Z.pos (digits2_pos m~0) = Z.pos (digits2_pos m) + 1)
    by (cbn [digits2_pos]; rewrite Pos2Z.inj_succ; reflexivity).
  rewrite Hd2, fexp_eq, xorb_false_r.
  set (d := Z.pos (digits2_pos m)) in *.
  assert (Hd : 0 < d) by (unfold d; lia).
  replace (Z.min (Z.max (d + 1 + e - (53 + -51) - 53) (-1074)) (e - -51)) with e by lia.
  replace (e - -51 - e) with 51 by lia.
  rewrite Z.shiftl_mul_pow2 by lia.
  replace (Z.pos m~0 * 2 ^ 51) with (Z.pos m * 4503599627370496) by lia.
  rewrite div_eucl_exact by lia.
  change (new_location 4503599627370496 0) with loc_Exact.
  apply binary_round_aux_keep; [exact Hc|exact He].
Qed.

(** Twice an ordinary float, halved, is that float. *)
Lemma fdiv_fadd_self (s : bool) (m : positive) (e : Z) :
  bounded prec emax m e = true ->
  e < emax - prec ->
  fdiv (fadd (S754_finite s m e) (S754_finite s m e)) (float_of_Z 2) = S754_finite s m e.
Proof.
  intros Hb Hlt. rewrite (fadd_self s m e Hb Hlt).
  pose proof Hb as Hb'.
  unfold bounded, canonical_mantissa in Hb'. apply andb_prop in Hb' as [Hc He].
  apply Z.eqb_eq in Hc. rewrite fexp_eq in Hc.
  destruct (Z.ltb_spec (-1074) e) as [Hnorm|Hsub]; cbn [orb].
  - apply fdiv_two_normal; [exact Hb|]. pose proof (Pos2Z.is_pos (digits2_pos m)). lia.
  - destruct (Z.eqb_spec (Z.pos (digits2_pos m)) 53) as [Hd|Hd].
    + apply fdiv_two_normal; assumption.
    + apply fdiv_two_subnormal; assumption.
Qed.

Lemma float_mean_one (x : float) : ordinary x = true -> float_mean [x] = x.
Proof.
  destruct x as [s|s| |s m e]; try discriminate. intros Hx.
  apply andb_prop in Hx as [Hb _].
  unfold float_mean, mean_with. cbn [fold_left length].
  change (fadd (S754_zero false) (S754_finite s m e)) with (S754_finite s m e).
  apply (fdiv_one s m e Hb).
Qed.

Lemma float_mean_two (x : float) : ordinary x = true -> float_mean [x; x] = x.
Proof.
  destruct x as [s|s| |s m e]; try discriminate. intros Hx.
  apply andb_prop in Hx as [Hb Hlt]. apply Z.ltb_lt in Hlt.
  unfold float_mean, mean_with. cbn [fold_left length].
  change (fadd (S754_zero false) (S754_finite s m e)) with (S754_finite s m e).
  apply (fdiv_fadd_self s m e Hb Hlt).
Qed.

(** C9, as the code has it.  The centroid is the arithmetic mean, sum over
    length.  Evaluated in exact rational arithmetic, the mean of one or
    more copies of a value is that value and the mean is the same for every
    reordering of the list.  Evaluated in binary64, as the program does, the
    centroid of one record, and of two equal records, with ordinary
    coordinates is that point exactly, and the centroid of two records with
    float coordinates is the same in either order. *)
Theorem centroid_mean_laws :
  (forall (x : Qc) (n : nat), Qc_mean (repeat x (S n)) = x)
  /\ (forall xs ys : list Qc, Permutation xs ys -> Qc_mean xs = Qc_mean ys)
  /\ (forall lat lon : float,
        ordinary lat = true -> ordinary lon = true ->
        calculate_centroid [latlon lat lon] = Ok (lat, lon) /\
        calculate_centroid [latlon lat lon; latlon lat lon] = Ok (lat, lon))
  /\ (forall lat1 lon1 lat2 lon2 : float,
        calculate_centroid [latlon lat1 lon1; latlon lat2 lon2]
        = calculate_centroid [latlon lat2 lon2; latlon lat1 lon1]).
Proof.
  split; [|split; [|split]].
  - intros x n. unfold Qc_mean, mean_with. rewrite repeat_length, Qc_fold_repeat.
    pose proof (Qc_of_nat_S_neq n) as Hn. field. exact Hn.
  - intros xs ys Hp. unfold Qc_mean, mean_with.
    rewrite (Qc_fold_permutation xs ys Hp), (Permutation_length Hp). reflexivity.
  - intros lat lon Hlat Hlon. split.
    + rewrite (calculate_centroid_floats _ [lat] [lon]);
        [|discriminate|reflexivity|repeat constructor|repeat constructor].
      rewrite (float_mean_one lat Hlat), (float_mean_one lon Hlon). reflexivity.
    + rewrite (calculate_centroid_floats _ [lat; lat] [lon; lon]);
        [|discriminate|reflexivity|repeat constructor|repeat constructor].
      rewrite (float_mean_two lat Hlat), (float_mean_two lon Hlon). reflexivity.
  - intros lat1 lon1 lat2 lon2.
    rewrite (calculate_centroid_floats _ [lat1; lat2] [lon1; lon2]);
      [|discriminate|reflexivity|repeat constructor|repeat constructor].
    rewrite (calculate_centroid_floats _ [lat2; lat1] [lon2; lon1]);
      [|discriminate|reflexivity|repeat constructor|repeat constructor].
    rewrite (float_mean_swap lat1 lat2), (float_mean_swap lon1 lon2). reflexivity.
Qed.

Lemma centroid_mean_laws_witness :
  Qc_mean [Q2Qc (1 # 3); Q2Qc (2 # 5); Q2Qc (7 # 2)]
  = Qc_mean [Q2Qc (7 # 2); Q2Qc (1 # 3); Q2Qc (2 # 5)]
  /\ calculate_centroid [latlon lat_ny lon_ny] = Ok (lat_ny, lon_ny)
  /\ calculate_centroid [latlon lat_ny lon_ny; latlon lat_ny lon_ny] = Ok (lat_ny, lon_ny).
Proof.
  split.
  - apply (proj1 (proj2 centroid_mean_laws)).
    apply Permutation_sym, (Permutation_cons_app [_; _] []), Permutation_refl.
  - apply (proj1 (proj2 (proj2 centroid_mean_laws)) lat_ny lon_ny); reflexivity.
Defined.

(** C9, as the specification words it, fails on the code: three records at
    latitude 0.1 and longitude 0.7 have the centroid
    (0.10000000000000002, 0.6999999999999998). *)
Lemma centroid_repeated_point_inexact :
  calculate_centroid (repeat (latlon (decimal 1 1) (decimal 7 1)) 3)
  = Ok (S754_finite false 7205759403792795 (-56),
        S754_finite false 6305039478318693 (-53))
  /\ calculate_centroid (repeat (latlon (decimal 1 1) (decimal 7 1)) 3)
     <> Ok (decimal 1 1, decimal 7 1).
Proof.
  assert (H : calculate_centroid (repeat (latlon (decimal 1 1) (decimal 7 1)) 3)
              = Ok (S754_finite false 7205759403792795 (-56),
                    S754_finite false 6305039478318693 (-53)))
    by (vm_compute; reflexivity).
  split; [exact H|]. rewrite H. vm_compute. discriminate.
Qed.

(** The order of three records matters as well, with the sum taken from
    the left: latitudes 0.1, 0.2, 0.3 against 0.3, 0.2, 0.1. *)
Remark centroid_order_matters :
  calculate_centroid [latlon (decimal 1 1) lon_ny; latlon (decimal 2 1) lon_ny;
                      latlon (decimal 3 1) lon_ny]
  <> calculate_centroid [latlon (decimal 3 1) lon_ny; latlon (decimal 2 1) lon_ny;
                         latlon (decimal 1 1) lon_ny].
Proof. vm_compute. discriminate. Qed.

(** The compensated sum of CPython 3.12 does not repair the repeated
    point: the mean of three times 0.1 is still not 0.1. *)
Remark compensated_mean_inexact :
  fdiv (sum_compensated (repeat (decimal 1 1) 3)) (float_of_Z 3) <> decimal 1 1.
Proof. vm_compute. discriminate. Qed.

(** ** The GeoJSON assembler *)

Lemma feature_fields (a : gmap string pyval) (q : assoc_fields) :
  has_fields a q -> feature a = Ok (feature_of q).
Proof.
  intros (Hi & Ht & Hla & Hlo). unfold feature.
  rewrite (dict_get_item_Some _ _ _ Hlo), (dict_get_item_Some _ _ _ Hla),
          (dict_get_item_Some _ _ _ Hi), (dict_get_item_Some _ _ _ Ht).
  reflexivity.
Qed.

Lemma features_in_order (associations : list (gmap string pyval)) (qs : list assoc_fields) :
  Forall2 has_fields associations qs ->
  mapM feature associations = Ok (feature_of <$> qs).
Proof.
  induction 1 as [|a q associations qs Hq _ IH]; [reflexivity|].
  cbn [mapM mbind result_bind]. rewrite (feature_fields a q Hq), IH. reflexivity.
Qed.

Lemma py_get_field (d : gmap string pyval) (key : string) (dflt : pyval) :
  py_get (VDict d) key dflt = Ok (field_or d key dflt).
Proof. unfold py_get, field_or. destruct (d !! key); reflexivity. Qed.

(** C7. For every manifest dict, every list of associations (dicts that
    hold index, timestamp, latitude and longitude) and every centroid, the
    assembler returns a document of type FeatureCollection whose features
    are, in association order, one Feature per association with a Point
    geometry, coordinates longitude first, and properties index and
    timestamp and no other; the centroid sits under the keys lat and lon;
    each metadata field is the manifest's, or its default when the
    manifest lacks it; the document has these eight keys and no other. *)
Theorem generate_geojson_output_shape (d : gmap string pyval)
    (associations : list (gmap string pyval)) (qs : list assoc_fields)
    (centroid : float * float) :
  Forall2 has_fields associations qs ->
  exists doc,
    generate_geojson_output (VDict d) associations centroid = Ok (VDict doc) /\
    doc !! "type" = Some (VStr "FeatureCollection") /\
    doc !! "features" = Some (VList (feature_of <$> qs)) /\
    length (feature_of <$> qs) = length associations /\
    doc !! "centroid"
    = Some (VDict (<["lat" := VFloat centroid.1]> (<["lon" := VFloat centroid.2]> ∅))) /\
    doc !! "filename" = Some (field_or d "filename" (VStr "")) /\
    doc !! "device_alias" = Some (field_or d "device_alias" (VStr "")) /\
    doc !! "total" = Some (field_or d "total" (VInt 0)) /\
    doc !! "beginning" = Some (field_or d "beginning" (VStr "")) /\
    doc !! "end" = Some (field_or d "end" (VStr "")) /\
    dom doc = list_to_set ["type"; "filename"; "device_alias"; "total"; "beginning";
                           "end"; "centroid"; "features"].
Proof.
  intros Hq. eexists. split.
  - unfold generate_geojson_output.
    rewrite (features_in_order _ _ Hq). cbn [mbind result_bind].
    rewrite !py_get_field. cbn [mbind result_bind]. reflexivity.
  - repeat split.
    rewrite length_fmap. symmetry. eapply Forall2_length, Hq.
Qed.

Lemma generate_geojson_output_shape_witness :
  exists doc,
    generate_geojson_output (VDict ∅)
      [association (VInt 0) (VInt 10) lat_ny lon_ny] (lat_ny, lon_ny) = Ok (VDict doc) /\
    doc !! "type" = Some (VStr "FeatureCollection") /\
    doc !! "features"
    = Some (VList (feature_of
              <$> [Build_assoc_fields (VInt 0) (VInt 10) (VFloat lat_ny) (VFloat lon_ny)])) /\
    length (feature_of
              <$> [Build_assoc_fields (VInt 0) (VInt 10) (VFloat lat_ny) (VFloat lon_ny)])
    = length [association (VInt 0) (VInt 10) lat_ny lon_ny] /\
    doc !! "centroid"
    = Some (VDict (<["lat" := VFloat (lat_ny, lon_ny).1]>
                   (<["lon" := VFloat (lat_ny, lon_ny).2]> ∅))) /\
    doc !! "filename" = Some (field_or ∅ "filename" (VStr "")) /\
    doc !! "device_alias" = Some (field_or ∅ "device_alias" (VStr "")) /\
    doc !! "total" = Some (field_or ∅ "total" (VInt 0)) /\
    doc !! "beginning" = Some (field_or ∅ "beginning" (VStr "")) /\
    doc !! "end" = Some (field_or ∅ "end" (VStr "")) /\
    dom doc = list_to_set ["type"; "filename"; "device_alias"; "total"; "beginning";
                           "end"; "centroid"; "features"].
Proof.
  apply (generate_geojson_output_shape ∅ [association (VInt 0) (VInt 10) lat_ny lon_ny]
           [Build_assoc_fields (VInt 0) (VInt 10) (VFloat lat_ny) (VFloat lon_ny)]
           (lat_ny, lon_ny)).
  repeat constructor.
Defined.

(** ** The position track parser *)

(** *** White space *)

Lemma rev_app_chars (s1 s2 : string) :
  list_ascii_of_string (String.rev_app s1 s2)
  = rev (list_ascii_of_string s1) ++ list_ascii_of_string s2.
Proof.
  revert s2. induction s1 as [|c s1 IH]; intros s2; simpl.
  - reflexivity.
  - rewrite IH. simpl. rewrite <- app_assoc. reflexivity.
Qed.

Lemma rev_chars (s : string) :
  list_ascii_of_string (String.rev s) = rev (list_ascii_of_string s).
Proof. unfold String.rev. rewrite rev_app_chars. simpl. apply app_nil_r. Qed.

Lemma blank_rev (s : string) : blank (String.rev s) = blank s.
Proof.
  unfold blank. rewrite rev_chars.
  apply eq_true_iff_eq. rewrite !forallb_forall.
  split; intros Hall c Hc; apply Hall.
  - apply in_rev. rewrite rev_involutive. exact Hc.
  - apply in_rev. exact Hc.
Qed.

Lemma blank_lstrip (s : string) : blank (lstrip s) = blank s.
Proof.
  induction s as [|c s IH]; [reflexivity|].
  simpl. destruct (is_space c) eqn:Hc.
  - rewrite IH. unfold blank. simpl. rewrite Hc. reflexivity.
  - reflexivity.
Qed.

Lemma lstrip_empty_iff (s : string) : lstrip s = EmptyString <-> blank s = true.
Proof.
  induction s as [|c s IH]; [done|].
  unfold blank in *. simpl. destruct (is_space c); simpl; [exact IH|]. split; discriminate.
Qed.

Lemma rev_empty (s : string) : String.rev s = EmptyString -> s = EmptyString.
Proof.
  intros Hr. apply (f_equal list_ascii_of_string) in Hr.
  rewrite rev_chars in Hr. simpl in Hr.
  destruct s as [|c s]; [reflexivity|].
  simpl in Hr. apply app_eq_nil in Hr as [_ Hr]. discriminate.
Qed.

(** [not line.strip()] holds exactly of the lines of white space. *)
Lemma strip_falsy_blank (s : string) : negb (str_truthy (str_strip s)) = blank s.
Proof.
  destruct (blank s) eqn:Hb.
  - apply lstrip_empty_iff in Hb. unfold str_strip. rewrite Hb. reflexivity.
  - destruct (str_strip s) as [|c r] eqn:Hs; [|reflexivity].
    unfold str_strip in Hs. apply rev_empty in Hs.
    apply lstrip_empty_iff in Hs. rewrite blank_rev, blank_lstrip in Hs. congruence.
Qed.

Lemma skipped_data_line (line : string) : skipped line = negb (data_line line).
Proof.
  unfold skipped, data_line. rewrite strip_falsy_blank, negb_involutive. reflexivity.
Qed.

(** *** The scan for the marker and the loop *)

Lemma data_start_none (lines : list string) (i : nat) :
  Forall (fun line => startswith "%  GPST" line = false) lines ->
  data_start_from i lines = None.
Proof.
  intros Hall. revert i. induction Hall as [|line rest Hl _ IH]; intros i; simpl.
  - reflexivity.
  - rewrite Hl. apply IH.
Qed.

Lemma data_start_after_marker (pre : list string) (m : string) (data : list string)
    (i : nat) :
  Forall (fun line => startswith "%  GPST" line = false) pre ->
  startswith "%  GPST" m = true ->
  data_start_from i (pre ++ m :: data) = Some (i + length pre + 1)%nat.
Proof.
  intros Hall Hm. revert i. induction Hall as [|line rest Hl _ IH]; intros i; simpl.
  - rewrite Hm. f_equal. lia.
  - rewrite Hl, IH. f_equal. lia.
Qed.

Section Parser.
Context {rt : Runtime}.

(** The loop appends one sample per data line, in order. *)
Lemma parse_pos_loop_samples (lines : list string) (samples acc : list sample) :
  Forall2 (fun line s => parse_pos_line line = Ok s) (List.filter data_line lines) samples ->
  parse_pos_loop lines acc = Ok (acc ++ samples).
Proof.
  revert samples acc. induction lines as [|line rest IH]; intros samples acc Hall.
  - inversion Hall; subst. simpl. rewrite app_nil_r. reflexivity.
  - cbn [parse_pos_loop List.filter] in *. rewrite skipped_data_line.
    destruct (data_line line); cbn [negb].
    + inversion Hall as [|? s ? samples' Hs Hrest]; subst.
      rewrite Hs. cbn [mbind result_bind].
      rewrite (IH samples' _ Hrest), <- app_assoc. reflexivity.
    + apply IH, Hall.
Qed.

(** The loop stops at the first data line that does not parse, with its
    exception. *)
Lemma parse_pos_loop_raises (before : list string) (line : string) (after : list string)
    (samples acc : list sample) (e : exn) :
  Forall2 (fun line s => parse_pos_line line = Ok s) (List.filter data_line before) samples ->
  data_line line = true ->
  parse_pos_line line = Raise e ->
  parse_pos_loop (before ++ line :: after) acc = Raise e.
Proof.
  revert samples acc. induction before as [|l rest IH]; intros samples acc Hall Hd He.
  - cbn [app parse_pos_loop]. rewrite skipped_data_line, Hd, He. reflexivity.
  - cbn [app parse_pos_loop List.filter] in *. rewrite skipped_data_line.
    destruct (data_line l); cbn [negb].
    + inversion Hall as [|? s ? samples' Hs Hrest]; subst.
      rewrite Hs. cbn [mbind result_bind]. eapply IH; eassumption.
    + eapply IH; eassumption.
Qed.

(** C10. A log without a line that begins with the marker gives the empty
    track, not an error.  With a marker, the data section is what follows
    the first one: there, a line is skipped exactly when it begins with
    [%] or holds white space only, and the other lines give one sample
    each, in the order met. *)
Theorem parse_pos_track (fs : filesystem) (file_path : string) :
  (forall lines,
     readlines fs file_path = Some lines ->
     Forall (fun line => startswith "%  GPST" line = false) lines ->
     parse_pos_lines lines = Ok [] /\ parse_pos_file fs file_path = Ok (Some []))
  /\ (forall line, skipped line = startswith "%" line || blank line)
  /\ (forall pre m data samples,
        readlines fs file_path = Some (pre ++ m :: data) ->
        Forall (fun line => startswith "%  GPST" line = false) pre ->
        startswith "%  GPST" m = true ->
        Forall2 (fun line s => parse_pos_line line = Ok s)
                (List.filter data_line data) samples ->
        parse_pos_lines (pre ++ m :: data) = Ok samples /\
        parse_pos_file fs file_path = Ok (Some samples) /\
        length samples = length (List.filter data_line data)).
Proof.
  split; [|split].
  - intros lines Hread Hall.
    assert (Hl : parse_pos_lines lines = Ok []).
    { unfold parse_pos_lines, data_start_index. rewrite (data_start_none _ _ Hall).
      reflexivity. }
    split; [exact Hl|]. unfold parse_pos_file. rewrite Hread, Hl. reflexivity.
  - intros line. rewrite skipped_data_line. unfold data_line.
    apply negb_involutive.
  - intros pre m data samples Hread Hpre Hm Hall.
    assert (Hl : parse_pos_lines (pre ++ m :: data) = Ok samples).
    { unfold parse_pos_lines, data_start_index.
      rewrite (data_start_after_marker pre m data 0 Hpre Hm).
      replace (0 + length pre + 1)%nat with (length pre + 1)%nat by lia.
      replace (pre ++ m :: data) with ((pre ++ [m]) ++ data)
        by (rewrite <- app_assoc; reflexivity).
      rewrite drop_app_length'; [|rewrite length_app; reflexivity].
      apply (parse_pos_loop_samples data samples [] Hall). }
    split; [exact Hl|]. split.
    + unfold parse_pos_file. rewrite Hread, Hl. reflexivity.
    + symmetry. eapply Forall2_length, Hall.
Qed.
End Parser.

Lemma parse_pos_track_witness :
  parse_pos_lines
    ([ "% program : RTKLIB" +:+ nl ]
     ++ ("%  GPST          latitude(deg) longitude(deg)" +:+ nl)
     :: [ "2024/01/01 00:00:00.000 40.712776 -74.005974" +:+ nl;
          "   " +:+ nl;
          "% a comment" +:+ nl;
          "2024/01/01 00:01:00.000 40.712776 -74.005974" +:+ nl ])
  = Ok demo_track
  /\ parse_pos_file demo_fs "d/track.pos" = Ok (Some demo_track)
  /\ length demo_track
     = length (List.filter data_line
                 [ "2024/01/01 00:00:00.000 40.712776 -74.005974" +:+ nl;
                   "   " +:+ nl;
                   "% a comment" +:+ nl;
                   "2024/01/01 00:01:00.000 40.712776 -74.005974" +:+ nl ]).
Proof.
  apply (proj2 (proj2 (parse_pos_track demo_fs "d/track.pos"))).
  - reflexivity.
  - repeat constructor.
  - reflexivity.
  - lazymatch goal with
    | |- Forall2 _ ?l _ => let l' := eval vm_compute in l in change l with l'
    end.
    constructor; [vm_compute; reflexivity|].
    constructor; [vm_compute; reflexivity|].
    constructor.
Defined.

(** The repository's own test of the parser, on the model. *)
Example test_parse_pos_file :
  parse_pos_lines
    [ "%  GPST ..." +:+ nl;
      "2024/01/01 00:00:00.000 40.712776 -74.005974" +:+ nl;
      "2024/01/01 00:01:00.000 40.712776 -74.005974" +:+ nl ]
  = Ok [ (1704060000000000000, lat_ny, lon_ny); (1704060060000000000, lat_ny, lon_ny) ].
Proof. vm_compute. reflexivity. Qed.

(** ** The time normaliser *)

(** The repository's own test: without a fraction of a second the result
    is the contract's. *)
Example test_date_str_to_timestamp :
  date_str_to_timestamp (rt := demo_runtime) (mk_datetime 2024 1 1 0 0 0 0)
  = Ok 1704060000000000000
  /\ contract_nanos (rt := demo_runtime) (mk_datetime 2024 1 1 0 0 0 0)
     = 1704060000000000000.
Proof. split; vm_compute; reflexivity. Qed.

(** C2 fails on the code.  [dt.timestamp()] already holds the fraction of
    the second, so scaling it by 1e9 and adding [microsecond * 1000] counts
    the microseconds twice; the product is moreover rounded to a multiple
    of 256 ns.  At 00:00:00.217313 the code returns ...434626024 where the
    contract gives ...217313000. *)
Theorem date_str_to_timestamp_counts_fraction_twice :
  date_str_to_timestamp (rt := demo_runtime) (mk_datetime 2024 1 1 0 0 0 217313)
  = Ok 1704060000434626024
  /\ contract_nanos (rt := demo_runtime) (mk_datetime 2024 1 1 0 0 0 217313)
     = 1704060000217313000
  /\ parse_pos_line (rt := demo_runtime)
       ("2024/01/01 00:00:00.217313 40.712776 -74.005974" +:+ nl)
     = Ok (1704060000434626024, lat_ny, lon_ny).
Proof. repeat split; vm_compute; reflexivity. Qed.

(** ** The batch *)

Section Written.
Variable fs : filesystem.

Lemma written_app (a b : writes) : written fs (a ++ b) = written fs a ++ written fs b.
Proof. unfold written. apply List.filter_app. Qed.

(** A file is written exactly when its document was passed to
    [write_geojson_file] and the write did not fail. *)
Lemma written_elem (docs : writes) (path : string) (doc : pyval) :
  (path, doc) ∈ written fs docs <-> (path, doc) ∈ docs /\ write_ok fs path doc = true.
Proof.
  unfold written. rewrite !list_elem_of_In, List.filter_In. reflexivity.
Qed.

(** When no write fails every document is written. *)
Lemma written_all (docs : writes) :
  Forall (fun pd => write_ok fs pd.1 pd.2 = true) docs -> written fs docs = docs.
Proof.
  induction 1 as [|pd rest Hok _ IH]; [reflexivity|].
  unfold written in *. cbn [List.filter]. rewrite Hok, IH. reflexivity.
Qed.

Lemma written_names_nodup (docs : writes) :
  NoDup docs.*1 -> NoDup (written fs docs).*1.
Proof.
  induction docs as [|[path doc] rest IH]; [intros _; constructor|].
  cbn [fmap list_fmap fst]. intros Hnd. apply NoDup_cons in Hnd as [Hnotin Hnd].
  unfold written. cbn [List.filter fst snd]. fold (written fs rest).
  destruct (write_ok fs path doc); [|apply IH, Hnd].
  cbn [fmap list_fmap fst]. constructor; [|apply IH, Hnd].
  intros Hin. apply Hnotin.
  apply list_elem_of_fmap in Hin as ([p d] & Hp & Hin). cbn [fst] in Hp. subst p.
  apply written_elem in Hin as [Hin _].
  apply list_elem_of_fmap. exists (path, d). auto.
Qed.

(** A write that fails leaves fewer files than documents. *)
Lemma written_some_failed (docs : writes) :
  Exists (fun pd => write_ok fs pd.1 pd.2 = false) docs ->
  (length (written fs docs) < length docs)%nat.
Proof.
  unfold written. induction 1 as [pd rest Hbad|pd rest _ IH]; cbn [List.filter length].
  - rewrite Hbad. pose proof (List.filter_length_le (fun pd => write_ok fs pd.1 pd.2) rest).
    lia.
  - destruct (write_ok fs pd.1 pd.2); cbn [length]; lia.
Qed.

(** One call of [write_geojson_file]. *)
Lemma write_geojson_file_written (filepath : string) (geojson : pyval) (w : writes) :
  write_geojson_file fs filepath geojson w = w ++ written fs [(filepath, geojson)].
Proof.
  unfold write_geojson_file, written. cbn [List.filter fst snd].
  destruct (write_ok fs filepath geojson); [reflexivity|].
  rewrite app_nil_r. reflexivity.
Qed.
End Written.

Section Batch.
Variable fs : filesystem.
Variable output_file : string.
Variable pos_data : option (list sample).

(** As long as every manifest gives a document the loop passes them all,
    in order, to [write_geojson_file]: what is written, after what was
    written before, is the documents whose write does not fail. *)
Lemma process_loop_all_ok (json_files : list (nat * string)) (w : writes) :
  Forall (fun jf => is_ok (manifest_document fs pos_data jf.2) = true) json_files ->
  process_loop fs output_file pos_data json_files w
  = (w ++ written fs (documents fs output_file pos_data json_files), Ok tt).
Proof.
  intros Hall. revert w.
  induction Hall as [|[index json_file] rest Hok _ IH]; intros w.
  - cbn [process_loop documents]. rewrite app_nil_r. reflexivity.
  - cbn [process_loop documents]. cbn [snd] in Hok.
    destruct (manifest_document fs pos_data json_file) as [geojson|e]; [|discriminate].
    rewrite IH, write_geojson_file_written, <- app_assoc, <- written_app.
    reflexivity.
Qed.

(** The first manifest whose pipeline raises ends the loop: nothing after
    it is read or written. *)
Lemma process_loop_first_failure (before after : list (nat * string))
    (index : nat) (json_file : string) (e : exn) (w : writes) :
  Forall (fun jf => is_ok (manifest_document fs pos_data jf.2) = true) before ->
  manifest_document fs pos_data json_file = Raise e ->
  process_loop fs output_file pos_data (before ++ (index, json_file) :: after) w
  = (w ++ written fs (documents fs output_file pos_data before), Raise e).
Proof.
  intros Hall He. revert w.
  induction Hall as [|[i f] rest Hok _ IH]; intros w.
  - cbn [app process_loop documents]. rewrite He, app_nil_r. reflexivity.
  - cbn [app process_loop documents]. cbn [snd] in Hok.
    destruct (manifest_document fs pos_data f) as [geojson|e']; [|discriminate].
    rewrite IH, write_geojson_file_written, <- app_assoc, <- written_app.
    reflexivity.
Qed.

(** One document per manifest when all of them give one. *)
Lemma documents_length (json_files : list (nat * string)) :
  Forall (fun jf => is_ok (manifest_document fs pos_data jf.2) = true) json_files ->
  length (documents fs output_file pos_data json_files) = length json_files.
Proof.
  induction 1 as [|[i f] rest Hok _ IH]; [reflexivity|].
  cbn [documents length]. cbn [snd] in Hok.
  destruct (manifest_document fs pos_data f); [|discriminate].
  cbn [length]. rewrite IH. reflexivity.
Qed.
End Batch.

(** C4, as the code has it.  Without a position log the batch raises
    FileNotFoundError before anything is written.  With one, the manifests
    are processed in listing order and there is no isolation: when the
    association, the centroid or the assembly of a manifest that was read
    raises, the exception leaves [process_files].  By then every manifest
    listed before it has given a document, and the files written are those
    of these documents whose write did not fail, a failed write being
    reported and passed over: one file for each earlier manifest when no
    write fails.  No later manifest is processed.  When no manifest raises
    the batch returns normally, and the files written are the documents
    of all the manifests whose write did not fail. *)
Theorem process_files_stops_at_first_failure {rt : Runtime} (fs : filesystem)
    (folder output_file : string) (files : list string) :
  listdir fs folder = Ok files ->
  (find_pos_file folder files = None ->
   process_files fs folder output_file
   = ([], Raise (FileNotFoundError "No .pos file found in the folder.")))
  /\ (forall pos_file pos_data before index json_file json_data after e,
        find_pos_file folder files = Some pos_file ->
        parse_pos_file fs pos_file = Ok pos_data ->
        json_files_from folder 0 files = before ++ (index, json_file) :: after ->
        Forall (fun jf => is_ok (manifest_document fs pos_data jf.2) = true) before ->
        json_load fs json_file = Some json_data ->
        manifest_document fs pos_data json_file = Raise e ->
        process_files fs folder output_file
        = (written fs (documents fs output_file pos_data before), Raise e)
        /\ length (documents fs output_file pos_data before) = length before
        /\ (Forall (fun pd => write_ok fs pd.1 pd.2 = true)
                   (documents fs output_file pos_data before) ->
            (process_files fs folder output_file).1
            = documents fs output_file pos_data before
            /\ length (process_files fs folder output_file).1 = length before))
  /\ (forall pos_file pos_data,
        find_pos_file folder files = Some pos_file ->
        parse_pos_file fs pos_file = Ok pos_data ->
        Forall (fun jf => is_ok (manifest_document fs pos_data jf.2) = true)
               (json_files_from folder 0 files) ->
        process_files fs folder output_file
        = (written fs (documents fs output_file pos_data (json_files_from folder 0 files)),
           Ok tt)
        /\ (Forall (fun pd => write_ok fs pd.1 pd.2 = true)
                   (documents fs output_file pos_data (json_files_from folder 0 files)) ->
            (process_files fs folder output_file).1
            = documents fs output_file pos_data (json_files_from folder 0 files))).
Proof.
  intros Hls. split; [|split].
  - intros Hnone. unfold process_files. rewrite Hls, Hnone. reflexivity.
  - intros pos_file pos_data before index json_file json_data after e
           Hpos Hparse Hsplit Hall _ He.
    assert (Hrun : process_files fs folder output_file
                   = (written fs (documents fs output_file pos_data before), Raise e)).
    { unfold process_files. rewrite Hls, Hpos, Hparse, Hsplit.
      rewrite (process_loop_first_failure fs output_file pos_data before after
                 index json_file e [] Hall He).
      reflexivity. }
    split; [exact Hrun|]. split; [apply documents_length, Hall|].
    intros Hw. rewrite Hrun. cbn [fst]. rewrite (written_all fs _ Hw).
    split; [reflexivity|apply documents_length, Hall].
  - intros pos_file pos_data Hpos Hparse Hall.
    assert (Hrun : process_files fs folder output_file
                   = (written fs (documents fs output_file pos_data
                                    (json_files_from folder 0 files)), Ok tt)).
    { unfold process_files. rewrite Hls, Hpos, Hparse.
      rewrite (process_loop_all_ok fs output_file pos_data _ [] Hall). reflexivity. }
    split; [exact Hrun|].
    intros Hw. rewrite Hrun. cbn [fst]. apply (written_all fs _ Hw).
Qed.

Lemma process_files_stops_at_first_failure_witness :
  process_files demo_fs "d" "geojson"
  = (written demo_fs (documents demo_fs "geojson" (Some demo_track) [(0%nat, "d/b.json")]),
     Raise (ValueError "The list of locations is empty"))
  /\ length (documents demo_fs "geojson" (Some demo_track) [(0%nat, "d/b.json")])
     = length [(0%nat, "d/b.json")]
  /\ (Forall (fun pd => write_ok demo_fs pd.1 pd.2 = true)
             (documents demo_fs "geojson" (Some demo_track) [(0%nat, "d/b.json")]) ->
      (process_files demo_fs "d" "geojson").1
      = documents demo_fs "geojson" (Some demo_track) [(0%nat, "d/b.json")]
      /\ length (process_files demo_fs "d" "geojson").1 = length [(0%nat, "d/b.json")]).
Proof.
  apply (proj1 (proj2 (process_files_stops_at_first_failure demo_fs "d" "geojson"
                         ["b.json"; "a.json"; "c.json"; "track.pos"] eq_refl))
           "d/track.pos" (Some demo_track) [(0%nat, "d/b.json")] 1%nat "d/a.json"
           (manifest ∅ []) [(2%nat, "d/c.json")]).
  - reflexivity.
  - vm_compute. reflexivity.
  - reflexivity.
  - repeat constructor.
  - reflexivity.
  - vm_compute. reflexivity.
Defined.

(** C4, as the specification words it, fails on the code: in the folder
    [d], where no write fails, the manifest [c.json] has a document of its
    own, and it is never written, because [a.json], listed before it, has
    no frame and the centroid of its empty association list raises. *)
Lemma process_files_does_not_isolate : ~ isolates_failures demo_fs "d" "geojson".
Proof.
  intros Hiso.
  destruct (manifest_document demo_fs (Some demo_track) "d/c.json") as [doc|e] eqn:Hdoc;
    [|vm_compute in Hdoc; discriminate].
  specialize (Hiso ["b.json"; "a.json"; "c.json"; "track.pos"] "d/track.pos"
                (Some demo_track) 2%nat "d/c.json" doc).
  assert (Hrun : (process_files demo_fs "d" "geojson").1
                 = documents demo_fs "geojson" (Some demo_track) [(0%nat, "d/b.json")]).
  { vm_compute. reflexivity. }
  rewrite Hrun in Hiso.
  assert (Hin : ("geojson" +:+ "_" +:+ str_of_nat 2 +:+ ".json", doc)
                ∈ documents demo_fs "geojson" (Some demo_track) [(0%nat, "d/b.json")]).
  { apply Hiso.
    - reflexivity.
    - reflexivity.
    - vm_compute. reflexivity.
    - apply list_elem_of_In. vm_compute. auto.
    - exact Hdoc.
    - reflexivity. }
  cbn [documents] in Hin.
  destruct (manifest_document demo_fs (Some demo_track) "d/b.json") as [docb|eb].
  - apply list_elem_of_In in Hin. destruct Hin as [Heq|[]].
    apply (f_equal fst) in Heq. vm_compute in Heq. discriminate.
  - inversion Hin.
Qed.

(** ** The repository's tests, on the model *)

Example test_find_closest_timestamp :
  find_closest_timestamp
    (Some [ (1577836800000000000, lat_ny, lon_ny); (1577836860000000000, lat_ny, lon_ny) ])
    (VInt 1577836830000000000)
  = Ok (lat_ny, lon_ny).
Proof. vm_compute. reflexivity. Qed.

Example test_associate_timestamps_with_gps :
  associate_timestamps_with_gps
    (manifest ∅ [ (VInt 0, 1577836800000000000); (VInt 1, 1577836860000000000) ])
    (Some [ (1577836800000000000, lat_ny, lon_ny); (1577836860000000000, lat_ny, lon_ny) ])
  = Ok [ association (VInt 0) (VInt 1577836800000000000) lat_ny lon_ny;
         association (VInt 1) (VInt 1577836860000000000) lat_ny lon_ny ].
Proof.
  unfold associate_timestamps_with_gps, manifest. cbn [subscript_key].
  rewrite lookup_insert_eq. reflexivity.
Qed.

Example test_calculate_centroid :
  calculate_centroid [ latlon lat_ny lon_ny; latlon lat_ny lon_ny ]
  = Ok (lat_ny, lon_ny).
Proof. vm_compute. reflexivity. Qed.

Example test_generate_geojson_output :
  generate_geojson_output
    (manifest (<["filename" := VStr "test.json"]> (<["device_alias" := VStr "device1"]>
               (<["total" := VInt 100]> ∅)))
              [ (VInt 0, 1577836800000000000) ])
    [ association (VInt 0) (VInt 1577836800000000000) lat_ny lon_ny ]
    (lat_ny, lon_ny)
  = Ok (VDict (
      <["type" := VStr "FeatureCollection"]> (
      <["filename" := VStr "test.json"]> (
      <["device_alias" := VStr "device1"]> (
      <["total" := VInt 100]> (
      <["beginning" := VStr ""]> (
      <["end" := VStr ""]> (
      <["centroid" := VDict (<["lat" := VFloat lat_ny]> (<["lon" := VFloat lon_ny]> ∅))]> (
      <["features" := VList [ point_feature (VInt 0) (VInt 1577836800000000000)
                                (VFloat lat_ny) (VFloat lon_ny) ]]> ∅))))))))).
Proof. vm_compute. reflexivity. Qed.

(** A manifest with more frames than the track has samples still
    succeeds; with a read failure reported by [parse_json_file] the batch
    stops on a TypeError. *)
Example more_frames_than_samples :
  is_ok (associate_timestamps_with_gps
           (manifest ∅ [ (VInt 0, 1); (VInt 1, 2); (VInt 2, 3) ])
           (Some [ (2, lat_ny, lon_ny) ])) = true
  /\ associate_timestamps_with_gps VNone (Some demo_track) = Raise TypeError.
Proof. split; vm_compute; reflexivity. Qed.

(** * Further properties of the program *)

(** ** What the search and the associator return, on any input *)

Lemma min_loop_elem {A} (key : A -> result pynum) (items : list A) (best : A)
    (best_key : pynum) (r : A) :
  min_loop key items best best_key = Ok r -> r = best \/ r ∈ items.
Proof.
  revert best best_key. induction items as [|x rest IH]; intros best bk Hr.
  - simpl in Hr. inversion Hr. auto.
  - cbn [min_loop] in Hr. destruct (key x) as [k|e]; [|discriminate].
    cbn [mbind result_bind] in Hr.
    destruct (num_lt k bk); apply IH in Hr as [->|Hin].
    + right. apply list_elem_of_here.
    + right. apply list_elem_of_further, Hin.
    + auto.
    + right. apply list_elem_of_further, Hin.
Qed.

(** A coordinate pair returned by the search belongs to a sample of the
    track, and the target it was asked for is a number. *)
Lemma find_closest_ok_inv (pos_data : option (list sample)) (target : pyval)
    (c : float * float) :
  find_closest_timestamp pos_data target = Ok c ->
  exists items x n,
    pos_data = Some items /\ x ∈ items /\ c = (s_lat x, s_lon x) /\
    as_num target = Ok n.
Proof.
  unfold find_closest_timestamp, closest_sample. intros Hc.
  destruct pos_data as [items|]; [|discriminate].
  destruct items as [|x rest]; [discriminate|].
  cbn [py_min] in Hc.
  destruct (time_distance target x) as [k|e] eqn:Hk; [|discriminate].
  cbn [mbind result_bind] in Hc.
  destruct (min_loop (time_distance target) rest x k) as [r|e] eqn:Hr; [|discriminate].
  cbn [mbind result_bind] in Hc. inversion Hc; subst.
  unfold time_distance in Hk.
  destruct (as_num target) as [n|e] eqn:Hn; [|discriminate].
  exists (x :: rest), r, n. repeat split.
  apply min_loop_elem in Hr as [->|Hin].
  - apply list_elem_of_here.
  - apply list_elem_of_further, Hin.
Qed.

(** Whatever the frames are, a loop that ends well has appended one
    association per frame, made of the frame's two fields and of the
    coordinates the search returned for it. *)
Lemma associate_loop_sound (frames : list pyval) (pos_data : option (list sample))
    (acc out : list (gmap string pyval)) :
  associate_loop frames pos_data acc = Ok out ->
  exists new,
    out = acc ++ new /\
    Forall2 (fun frame a => exists i t c,
               subscript_idx frame 0 = Ok i /\
               subscript_idx frame 1 = Ok t /\
               find_closest_timestamp pos_data t = Ok c /\
               a = association i t c.1 c.2) frames new.
Proof.
  revert acc. induction frames as [|frame rest IH]; intros acc Hout.
  - simpl in Hout. inversion Hout. exists []. rewrite app_nil_r. split; [done|constructor].
  - cbn [associate_loop] in Hout.
    destruct (subscript_idx frame 0) as [i|e] eqn:Hi; [|discriminate].
    cbn [mbind result_bind] in Hout.
    destruct (subscript_idx frame 1) as [t|e] eqn:Ht; [|discriminate].
    cbn [mbind result_bind] in Hout.
    destruct (find_closest_timestamp pos_data t) as [c|e] eqn:Hc; [|discriminate].
    cbn [mbind result_bind] in Hout.
    apply IH in Hout as (new & -> & Hall).
    exists (association i t c.1 c.2 :: new). split.
    + rewrite <- app_assoc. reflexivity.
    + constructor; [|exact Hall]. exists i, t, c. auto.
Qed.

(** X1. Whenever the associator returns, on any manifest value and any
    track, every association it returns is the dict of exactly the four
    keys, its coordinates are those of one sample that is in the track
    (never a made-up point), and its timestamp is a number. *)
Theorem associations_come_from_track (json_data : pyval)
    (pos_data : option (list sample)) (associations : list (gmap string pyval)) :
  associate_timestamps_with_gps json_data pos_data = Ok associations ->
  Forall (fun a => exists i t n items x,
            a = association i t (s_lat x) (s_lon x) /\
            dom a = list_to_set ["index"; "timestamp"; "latitude"; "longitude"] /\
            pos_data = Some items /\ x ∈ items /\
            as_num t = Ok n) associations.
Proof.
  unfold associate_timestamps_with_gps. intros Hr.
  destruct (subscript_key json_data "timestamps") as [ts|e]; [|discriminate].
  cbn [mbind result_bind] in Hr.
  destruct (py_iter ts) as [frames|e]; [|discriminate].
  cbn [mbind result_bind] in Hr.
  apply associate_loop_sound in Hr as (new & -> & Hall).
  rewrite app_nil_l. clear -Hall.
  induction Hall as [|frame a frames new (i & t & c & _ & _ & Hc & ->) _ IH];
    constructor; [|exact IH].
  apply find_closest_ok_inv in Hc as (items & x & n & -> & Hin & -> & Hn).
  exists i, t, n, items, x. repeat split; done.
Qed.

Lemma associations_come_from_track_witness :
  Forall (fun a => exists i t n items x,
            a = association i t (s_lat x) (s_lon x) /\
            dom a = list_to_set ["index"; "timestamp"; "latitude"; "longitude"] /\
            Some demo_track = Some items /\ x ∈ items /\
            as_num t = Ok n)
         [association (VInt 7) (VInt 5) lat_ny lon_ny].
Proof.
  apply (associations_come_from_track (manifest ∅ [(VInt 7, 5)]) (Some demo_track)).
  unfold associate_timestamps_with_gps, manifest. cbn [subscript_key].
  rewrite lookup_insert_eq. reflexivity.
Defined.

(** ** The search under a change of time origin, and on an exact match *)

Lemma time_gap_shift (delta t : Z) (x : sample) :
  time_gap (t + delta) (shift_sample delta x) = time_gap t x.
Proof. unfold time_gap, shift_sample, s_time. simpl. f_equal. lia. Qed.

Lemma first_min_shift (delta t : Z) (rest : list sample) (x : sample) :
  first_min (time_gap (t + delta)) (shift_sample delta <$> rest) (shift_sample delta x)
  = shift_sample delta (first_min (time_gap t) rest x).
Proof.
  revert x. induction rest as [|y rest IH]; intros x; [reflexivity|].
  cbn [fmap list_fmap first_min]. rewrite !time_gap_shift.
  destruct (time_gap t y <? time_gap t x); apply IH.
Qed.

(** X2. Moving every sample of the track and the target by the same amount
    of time does not change the coordinates found (nor the failure on an
    empty track): only differences of timestamps matter. *)
Theorem find_closest_shift_invariant (pos : list sample) (t delta : Z) :
  find_closest_timestamp (Some (shift_sample delta <$> pos)) (VInt (t + delta))
  = find_closest_timestamp (Some pos) (VInt t).
Proof.
  destruct pos as [|x rest]; [reflexivity|].
  unfold find_closest_timestamp. cbn [fmap list_fmap].
  rewrite !closest_sample_first_min, first_min_shift. reflexivity.
Qed.

(** X3. When the target is the timestamp of a sample of the track, the
    coordinates returned are those of the first sample with that
    timestamp. *)
Theorem find_closest_exact_match (pos : list sample) (t : Z) (i : nat) (x : sample) :
  pos !! i = Some x ->
  s_time x = t ->
  (forall j y, (j < i)%nat -> pos !! j = Some y -> s_time y <> t) ->
  closest_sample (Some pos) (VInt t) = Ok x /\
  find_closest_timestamp (Some pos) (VInt t) = Ok (s_lat x, s_lon x).
Proof.
  intros Hi Ht Hfirst.
  assert (Hne : pos <> []) by (intros ->; done).
  destruct (closest_sample_earliest_least pos t Hne) as (k & r & Hk & Hr & Hle & Hlt).
  assert (Hx0 : time_gap t x = 0) by (unfold time_gap; rewrite Ht; lia).
  assert (Hr0 : time_gap t r = 0).
  { specialize (Hle i x Hi). unfold time_gap in *. lia. }
  assert (Hki : k = i).
  { destruct (Nat.lt_trichotomy k i) as [Hlt'|[Heq|Hgt]]; [|exact Heq|].
    - exfalso. apply (Hfirst k r Hlt' Hk). unfold time_gap in Hr0. lia.
    - specialize (Hlt i x Hgt Hi). lia. }
  subst k. assert (r = x) by congruence. subst r.
  split; [exact Hr|]. apply find_closest_of_closest, Hr.
Qed.

Lemma find_closest_exact_match_witness :
  closest_sample (Some demo_track) (VInt 1704060060000000000)
  = Ok (1704060060000000000, lat_ny, lon_ny) /\
  find_closest_timestamp (Some demo_track) (VInt 1704060060000000000)
  = Ok (s_lat (1704060060000000000, lat_ny, lon_ny),
        s_lon (1704060060000000000, lat_ny, lon_ny)).
Proof.
  apply (find_closest_exact_match demo_track 1704060060000000000 1
           (1704060060000000000, lat_ny, lon_ny)).
  - reflexivity.
  - reflexivity.
  - intros [|j] y Hj Hy; [|lia]. inversion Hy; subst. discriminate.
Defined.

(** ** A batch without a usable track *)

(** Without samples, because the log could not be read or because it has
    no marker, no manifest gives a document. *)
Lemma manifest_document_needs_samples (fs : filesystem)
    (pos_data : option (list sample)) (json_file : string) :
  pos_data = None \/ pos_data = Some [] ->
  exists e, manifest_document fs pos_data json_file = Raise e.
Proof.
  intros Hpos. unfold manifest_document.
  destruct (associate_timestamps_with_gps (parse_json_file fs json_file) pos_data)
    as [associations|e] eqn:Ha; [|eauto].
  cbn [mbind result_bind].
  assert (Hnil : associations = []).
  { unfold associate_timestamps_with_gps in Ha.
    destruct (subscript_key (parse_json_file fs json_file) "timestamps") as [ts|e];
      [|discriminate].
    cbn [mbind result_bind] in Ha.
    destruct (py_iter ts) as [frames|e]; [|discriminate].
    cbn [mbind result_bind] in Ha.
    apply associate_loop_sound in Ha as (new & -> & Hall).
    destruct Hall as [|frame a frames new (i & t & c & _ & _ & Hc & _) _]; [reflexivity|].
    apply find_closest_ok_inv in Hc as (items & x & n & Hp & Hin & _).
    destruct Hpos as [->| ->]; [discriminate|].
    inversion Hp; subst. inversion Hin. }
  subst. eexists. reflexivity.
Qed.

(** X4. When the position log is unreadable ([parse_pos_file] gives None)
    or has no sample (no marker line, or no data line after it), a batch
    with at least one manifest writes nothing and ends on an exception. *)
Theorem process_files_needs_samples {rt : Runtime} (fs : filesystem)
    (folder output_file : string) (files : list string) (pos_file : string)
    (pos_data : option (list sample)) :
  listdir fs folder = Ok files ->
  find_pos_file folder files = Some pos_file ->
  parse_pos_file fs pos_file = Ok pos_data ->
  pos_data = None \/ pos_data = Some [] ->
  json_files_from folder 0 files <> [] ->
  exists e, process_files fs folder output_file = ([], Raise e).
Proof.
  intros Hls Hpf Hparse Hpos Hjs. unfold process_files.
  rewrite Hls, Hpf, Hparse.
  destruct (json_files_from folder 0 files) as [|[index json_file] rest]; [done|].
  cbn [process_loop].
  destruct (manifest_document_needs_samples fs pos_data json_file Hpos) as [e He].
  rewrite He. eauto.
Qed.

Lemma process_files_needs_samples_witness :
  exists e, process_files unmarked_fs "u" "geojson" = ([], Raise e).
Proof.
  apply (process_files_needs_samples unmarked_fs "u" "geojson" ["m.json"; "t.pos"]
           "u/t.pos" (Some [])).
  - reflexivity.
  - reflexivity.
  - reflexivity.
  - right. reflexivity.
  - discriminate.
Defined.

(** ** The centroid calculator: what it raises and what it reads *)

Lemma int_to_float_raises (z : Z) (e : exn) :
  int_to_float z = Raise e -> e = OverflowError.
Proof.
  unfold int_to_float. destruct (Z.abs z <? 2 ^ 1024 - 2 ^ 970); [discriminate|].
  intros H. inversion H. reflexivity.
Qed.

Lemma num_add_raises (a b : pynum) (e : exn) :
  num_add a b = Raise e -> e = OverflowError.
Proof.
  destruct a as [x|x], b as [y|y]; cbn [num_add]; try discriminate.
  - destruct (int_to_float x) eqn:Hx; [discriminate|].
    cbn [mbind result_bind]. intros H. inversion H; subst.
    eapply int_to_float_raises, Hx.
  - destruct (int_to_float y) eqn:Hy; [discriminate|].
    cbn [mbind result_bind]. intros H. inversion H; subst.
    eapply int_to_float_raises, Hy.
Qed.

Lemma sum_from_raises (items : list pyval) (acc : pynum) (e : exn) :
  sum_from acc items = Raise e -> e = TypeError \/ e = OverflowError.
Proof.
  revert acc. induction items as [|v rest IH]; intros acc; [discriminate|].
  cbn [sum_from].
  destruct (as_num v) as [n|e'] eqn:Hn.
  - cbn [mbind result_bind]. destruct (num_add acc n) as [acc'|e''] eqn:Ha.
    + cbn [mbind result_bind]. apply IH.
    + cbn [mbind result_bind]. intros H. inversion H; subst.
      right. eapply num_add_raises, Ha.
  - cbn [mbind result_bind]. intros H. inversion H; subst.
    left. destruct v; simpl in Hn; inversion Hn; reflexivity.
Qed.

(** Division by a non-zero int raises nothing but OverflowError. *)
Lemma truediv_by_nonzero_raises (a : pynum) (n : Z) (e : exn) :
  n <> 0 -> num_truediv a (NInt n) = Raise e -> e = OverflowError.
Proof.
  intros Hn. apply Z.eqb_neq in Hn. destruct a as [x|x]; cbn [num_truediv]; rewrite ?Hn.
  - destruct x; [discriminate| |];
      match goal with
      | |- context [fdiv ?u ?v] => destruct (fdiv u v); try discriminate
      end; intros H; inversion H; reflexivity.
  - destruct (int_to_float n) eqn:Hf; cbn [mbind result_bind]; [discriminate|].
    intros H. inversion H; subst. eapply int_to_float_raises, Hf.
Qed.

(** The comprehension over a key that every location holds returns, with
    one value per location. *)
Lemma mapM_get_present (key : string) (locs : list (gmap string pyval)) :
  forallb (has_key key) locs = true ->
  exists vs, mapM (fun loc => dict_get_item loc key) locs = Ok vs /\
             length vs = length locs /\
             Forall2 (fun loc v => loc !! key = Some v) locs vs.
Proof.
  induction locs as [|loc rest IH]; intros Hall.
  - exists []. repeat split. constructor.
  - cbn [forallb] in Hall. apply andb_prop in Hall as [Hk Hrest].
    destruct (IH Hrest) as (vs & Hvs & Hlen & Hf).
    unfold has_key in Hk. destruct (loc !! key) as [v|] eqn:Hv; [|discriminate].
    exists (v :: vs). split; [|split].
    + cbn [mapM mbind result_bind].
      rewrite (dict_get_item_Some _ _ _ Hv), Hvs. reflexivity.
    + simpl. rewrite Hlen. reflexivity.
    + constructor; assumption.
Qed.

Lemma forallb_both_keys (locs : list (gmap string pyval)) :
  forallb (fun loc => has_key "latitude" loc && has_key "longitude" loc) locs = true ->
  forallb (has_key "latitude") locs = true /\ forallb (has_key "longitude") locs = true.
Proof.
  induction locs as [|loc rest IH]; [done|].
  cbn [forallb]. intros H. apply andb_prop in H as [Hk Hrest].
  apply andb_prop in Hk as [H1 H2]. destruct (IH Hrest) as [Ha Hb].
  rewrite H1, H2, Ha, Hb. done.
Qed.

(** X5. The exceptions of the centroid calculator: the ValueError of the
    empty list, the ValueError of a missing coordinate key, TypeError (a
    coordinate that is not a number) and OverflowError (an int too large
    for a float).  It never divides by zero, and its third check, on empty
    coordinate lists, never fires. *)
Theorem calculate_centroid_exceptions (locations : list (gmap string pyval)) (e : exn) :
  calculate_centroid locations = Raise e ->
  e = ValueError "The list of locations is empty"
  \/ e = ValueError "Each location must have 'latitude' and 'longitude' keys"
  \/ e = TypeError
  \/ e = OverflowError.
Proof.
  unfold calculate_centroid.
  destruct locations as [|loc0 rest] eqn:Hlocs.
  { cbn [is_nil]. intros H. inversion H. auto. }
  cbn [is_nil]. rewrite <- Hlocs.
  destruct (forallb _ locations) eqn:Hkeys; cbn [negb].
  2: { intros H. inversion H. auto. }
  destruct (forallb_both_keys _ Hkeys) as [Hla Hlo].
  destruct (mapM_get_present "latitude" locations Hla) as (lats & -> & Hl1 & _).
  destruct (mapM_get_present "longitude" locations Hlo) as (lons & -> & Hl2 & _).
  cbn [mbind result_bind].
  assert (Hpos : (0 < length locations)%nat) by (rewrite Hlocs; simpl; lia).
  assert (Hn1 : is_nil lats = false) by (destruct lats; [simpl in Hl1; lia|done]).
  assert (Hn2 : is_nil lons = false) by (destruct lons; [simpl in Hl2; lia|done]).
  rewrite Hn1, Hn2. cbn [orb].
  destruct (py_sum lats) as [s1|e1] eqn:Hs1; cbn [mbind result_bind].
  2: { intros H. inversion H; subst. apply sum_from_raises in Hs1. tauto. }
  destruct (num_truediv s1 _) as [c1|e1] eqn:Hd1; cbn [mbind result_bind].
  2: { intros H. inversion H; subst.
       apply truediv_by_nonzero_raises in Hd1; [auto|lia]. }
  destruct (py_sum lons) as [s2|e2] eqn:Hs2; cbn [mbind result_bind].
  2: { intros H. inversion H; subst. apply sum_from_raises in Hs2. tauto. }
  destruct (num_truediv s2 _) as [c2|e2] eqn:Hd2; cbn [mbind result_bind].
  2: { intros H. inversion H; subst.
       apply truediv_by_nonzero_raises in Hd2; [auto|lia]. }
  discriminate.
Qed.

Lemma calculate_centroid_exceptions_witness :
  ValueError "Each location must have 'latitude' and 'longitude' keys"
  = ValueError "The list of locations is empty"
  \/ ValueError "Each location must have 'latitude' and 'longitude' keys"
     = ValueError "Each location must have 'latitude' and 'longitude' keys"
  \/ ValueError "Each location must have 'latitude' and 'longitude' keys" = TypeError
  \/ ValueError "Each location must have 'latitude' and 'longitude' keys" = OverflowError.
Proof.
  apply (calculate_centroid_exceptions [latlon lat_ny lon_ny; ∅]).
  reflexivity.
Defined.

Lemma forallb_keys_agree (l1 l2 : list (gmap string pyval)) :
  Forall2 (fun a b => a !! "latitude" = b !! "latitude" /\
                      a !! "longitude" = b !! "longitude") l1 l2 ->
  forallb (fun loc => has_key "latitude" loc && has_key "longitude" loc) l1
  = forallb (fun loc => has_key "latitude" loc && has_key "longitude" loc) l2.
Proof.
  induction 1 as [|a b l1 l2 [Hla Hlo] _ IH]; [reflexivity|].
  cbn [forallb]. rewrite IH. f_equal. unfold has_key. rewrite Hla, Hlo. reflexivity.
Qed.

Lemma mapM_get_agree (key : string) (l1 l2 : list (gmap string pyval)) :
  Forall2 (fun a b => a !! key = b !! key) l1 l2 ->
  mapM (fun loc => dict_get_item loc key) l1 = mapM (fun loc => dict_get_item loc key) l2.
Proof.
  induction 1 as [|a b l1 l2 Hk _ IH]; [reflexivity|].
  cbn [mapM]. rewrite IH. f_equal. unfold dict_get_item. rewrite Hk. reflexivity.
Qed.

(** X6. The centroid reads the two coordinate entries of each location and
    nothing else: two lists of locations that agree, position by position,
    on [latitude] and on [longitude] have the same centroid, or the same
    exception, whatever their other keys. *)
Theorem calculate_centroid_reads_coordinates (l1 l2 : list (gmap string pyval)) :
  Forall2 (fun a b => a !! "latitude" = b !! "latitude" /\
                      a !! "longitude" = b !! "longitude") l1 l2 ->
  calculate_centroid l1 = calculate_centroid l2.
Proof.
  intros Hagree. unfold calculate_centroid.
  assert (Hnil : is_nil l1 = is_nil l2) by (destruct Hagree; reflexivity).
  rewrite Hnil, (forallb_keys_agree l1 l2 Hagree).
  rewrite (mapM_get_agree "latitude" l1 l2), (mapM_get_agree "longitude" l1 l2).
  - reflexivity.
  - eapply Forall2_impl; [exact Hagree|]. intros a b [_ H]. exact H.
  - eapply Forall2_impl; [exact Hagree|]. intros a b [H _]. exact H.
Qed.

Lemma calculate_centroid_reads_coordinates_witness :
  calculate_centroid [association (VInt 3) (VInt 9) lat_ny lon_ny]
  = calculate_centroid [latlon lat_ny lon_ny].
Proof.
  apply (calculate_centroid_reads_coordinates
           [association (VInt 3) (VInt 9) lat_ny lon_ny] [latlon lat_ny lon_ny]).
  repeat constructor.
Defined.

(** ** One manifest, end to end *)

Lemma association_has_fields (i t : pyval) (lat lon : float) :
  has_fields (association i t lat lon)
             (Build_assoc_fields i t (VFloat lat) (VFloat lon)).
Proof.
  unfold has_fields. cbn [a_index a_timestamp a_latitude a_longitude].
  split; [apply association_index|].
  split; [apply association_timestamp|].
  split; [apply association_latitude|apply association_longitude].
Qed.

(** What the associations of well-formed entries hold, in the three forms
    the rest of the pipeline reads. *)
Lemma associations_of_entries (pos : list sample) (entries : list (pyval * Z))
    (out : list (gmap string pyval)) :
  Forall2 (fun e a => exists lat lon,
             find_closest_timestamp (Some pos) (VInt e.2) = Ok (lat, lon) /\
             a = association e.1 (VInt e.2) lat lon) entries out ->
  exists lats lons qs,
    Forall2 (fun a x => a !! "latitude" = Some (VFloat x)) out lats /\
    Forall2 (fun a x => a !! "longitude" = Some (VFloat x)) out lons /\
    Forall2 has_fields out qs /\
    Forall2 (fun e q => exists x, x ∈ pos /\
               feature_of q = point_feature e.1 (VInt e.2)
                                (VFloat (s_lat x)) (VFloat (s_lon x))) entries qs.
Proof.
  induction 1 as [|e a entries out (lat & lon & Hc & ->) _ IH].
  - exists [], [], []. repeat split; constructor.
  - destruct IH as (lats & lons & qs & Hla & Hlo & Hq & He).
    apply find_closest_ok_inv in Hc as (items & x & n & Hp & Hin & Hxy & _).
    inversion Hp; subst items. inversion Hxy; subst lat lon.
    exists (s_lat x :: lats), (s_lon x :: lons),
           (Build_assoc_fields e.1 (VInt e.2) (VFloat (s_lat x)) (VFloat (s_lon x)) :: qs).
    split; [|split; [|split]].
    + constructor; [apply association_latitude|exact Hla].
    + constructor; [apply association_longitude|exact Hlo].
    + constructor; [apply association_has_fields|exact Hq].
    + constructor; [|exact He]. exists x. split; [exact Hin|reflexivity].
Qed.

(** X7. A well-formed manifest with at least one frame entry, against a
    non-empty track, always gives a document: the association, the
    centroid and the assembly all return.  The document has one feature
    per frame entry, in order, each with the entry's index and timestamp
    and the coordinates of a sample of the track, and the centroid of the
    associations under [centroid]. *)
Theorem manifest_document_succeeds (fs : filesystem) (json_file : string)
    (meta : gmap string pyval) (entries : list (pyval * Z)) (pos : list sample) :
  json_load fs json_file = Some (manifest meta entries) ->
  entries <> [] ->
  pos <> [] ->
  Z.of_nat (length entries) < 2 ^ 63 ->
  exists doc features associations c,
    manifest_document fs (Some pos) json_file = Ok (VDict doc) /\
    associate_timestamps_with_gps (manifest meta entries) (Some pos) = Ok associations /\
    calculate_centroid associations = Ok c /\
    doc !! "centroid"
    = Some (VDict (<["lat" := VFloat c.1]> (<["lon" := VFloat c.2]> ∅))) /\
    doc !! "features" = Some (VList features) /\
    Forall2 (fun e f => exists x, x ∈ pos /\
               f = point_feature e.1 (VInt e.2) (VFloat (s_lat x)) (VFloat (s_lon x)))
            entries features.
Proof.
  intros Hload Hent Hpos Hlen.
  destruct (associate_loop_entries pos entries [] Hpos) as (out & Hout & Hall).
  rewrite app_nil_l in Hout.
  assert (Ha : associate_timestamps_with_gps (manifest meta entries) (Some pos) = Ok out).
  { unfold associate_timestamps_with_gps, manifest. cbn [subscript_key].
    rewrite lookup_insert_eq. exact Hout. }
  pose proof (Forall2_length _ _ _ Hall) as Hl.
  destruct (associations_of_entries pos entries out Hall)
    as (lats & lons & qs & Hla & Hlo & Hq & He).
  assert (Hc : calculate_centroid out = Ok (float_mean lats, float_mean lons)).
  { apply calculate_centroid_floats; [|rewrite <- Hl; exact Hlen|exact Hla|exact Hlo].
    intros ->. destruct entries; [done|discriminate]. }
  eexists _, (feature_of <$> qs), out, (float_mean lats, float_mean lons).
  split; [|split; [exact Ha|split; [exact Hc|]]].
  - unfold manifest_document, parse_json_file. rewrite Hload, Ha.
    cbn [mbind result_bind]. rewrite Hc. cbn [mbind result_bind].
    unfold generate_geojson_output, manifest.
    rewrite (features_in_order _ _ Hq). cbn [mbind result_bind].
    rewrite !py_get_field. cbn [mbind result_bind]. reflexivity.
  - split; [reflexivity|]. split; [reflexivity|].
    apply Forall2_fmap_r. eapply Forall2_impl; [exact He|].
    intros e q (x & Hin & Hf). exists x. auto.
Qed.

Lemma manifest_document_succeeds_witness :
  exists doc features associations c,
    manifest_document demo_fs (Some demo_track) "d/b.json" = Ok (VDict doc) /\
    associate_timestamps_with_gps (manifest ∅ [(VInt 0, 1704060000000000000)])
      (Some demo_track) = Ok associations /\
    calculate_centroid associations = Ok c /\
    doc !! "centroid"
    = Some (VDict (<["lat" := VFloat c.1]> (<["lon" := VFloat c.2]> ∅))) /\
    doc !! "features" = Some (VList features) /\
    Forall2 (fun e f => exists x, x ∈ demo_track /\
               f = point_feature e.1 (VInt e.2) (VFloat (s_lat x)) (VFloat (s_lon x)))
            [(VInt 0, 1704060000000000000)] features.
Proof.
  apply (manifest_document_succeeds demo_fs "d/b.json" ∅
           [(VInt 0, 1704060000000000000)] demo_track).
  - reflexivity.
  - discriminate.
  - discriminate.
  - reflexivity.
Defined.

(** ** The assembler on ill-formed input *)

Lemma feature_incomplete (a : gmap string pyval) (k : string) :
  first_missing a = Some k -> feature a = Raise (KeyError k).
Proof.
  unfold first_missing, feature, has_key, dict_get_item.
  destruct (a !! "longitude"); cbn [negb mbind result_bind];
    [|intros H; inversion H; reflexivity].
  destruct (a !! "latitude"); cbn [negb mbind result_bind];
    [|intros H; inversion H; reflexivity].
  destruct (a !! "index"); cbn [negb mbind result_bind];
    [|intros H; inversion H; reflexivity].
  destruct (a !! "timestamp"); cbn [negb mbind result_bind];
    [discriminate|intros H; inversion H; reflexivity].
Qed.

Lemma feature_complete (a : gmap string pyval) :
  first_missing a = None -> exists f, feature a = Ok f.
Proof.
  unfold first_missing, feature, has_key, dict_get_item.
  destruct (a !! "longitude"); cbn [negb mbind result_bind]; [|discriminate].
  destruct (a !! "latitude"); cbn [negb mbind result_bind]; [|discriminate].
  destruct (a !! "index"); cbn [negb mbind result_bind]; [|discriminate].
  destruct (a !! "timestamp"); cbn [negb mbind result_bind]; [|discriminate].
  eauto.
Qed.

Lemma features_complete (associations : list (gmap string pyval)) :
  Forall (fun a => first_missing a = None) associations ->
  exists fs, mapM feature associations = Ok fs.
Proof.
  induction 1 as [|a rest Ha _ [fs IH]]; [exists []; reflexivity|].
  destruct (feature_complete a Ha) as [f Hf].
  exists (f :: fs). cbn [mapM mbind result_bind]. rewrite Hf, IH. reflexivity.
Qed.

Lemma features_first_incomplete (before after : list (gmap string pyval))
    (a : gmap string pyval) (k : string) :
  Forall (fun a => first_missing a = None) before ->
  first_missing a = Some k ->
  mapM feature (before ++ a :: after) = Raise (KeyError k).
Proof.
  intros Hb Ha. induction Hb as [|b rest Hcomp _ IH].
  - cbn [app mapM mbind result_bind]. rewrite (feature_incomplete a k Ha). reflexivity.
  - destruct (feature_complete b Hcomp) as [f Hf].
    cbn [app mapM mbind result_bind]. rewrite Hf. cbn [mbind result_bind].
    cbn [mapM] in IH. rewrite IH. reflexivity.
Qed.

(** X8. The assembler never returns a partial document.  If an association
    lacks one of its four keys, the first such association makes it raise
    KeyError, with the first key that association lacks in the order
    longitude, latitude, index, timestamp, whatever the manifest is; and if
    all associations are complete but the manifest is not a dict (None
    after a failed read, say), it raises AttributeError. *)
Theorem generate_geojson_output_raises (json_data : pyval) (centroid : float * float) :
  (forall before a after k,
     Forall (fun a => first_missing a = None) before ->
     first_missing a = Some k ->
     generate_geojson_output json_data (before ++ a :: after) centroid
     = Raise (KeyError k))
  /\ (forall associations,
        Forall (fun a => first_missing a = None) associations ->
        (forall d, json_data <> VDict d) ->
        generate_geojson_output json_data associations centroid = Raise AttributeError).
Proof.
  split.
  - intros before a after k Hb Ha. unfold generate_geojson_output.
    rewrite (features_first_incomplete before after a k Hb Ha). reflexivity.
  - intros associations Hall Hnd. unfold generate_geojson_output.
    destruct (features_complete associations Hall) as [fs ->].
    cbn [mbind result_bind].
    destruct json_data; try reflexivity. exfalso. eapply Hnd. reflexivity.
Qed.

Lemma generate_geojson_output_raises_witness :
  generate_geojson_output VNone
    ([association (VInt 0) (VInt 1) lat_ny lon_ny]
     ++ <["longitude" := VFloat lon_ny]> (<["index" := VInt 1]> ∅) :: [∅])
    (lat_ny, lon_ny)
  = Raise (KeyError "latitude")
  /\ generate_geojson_output VNone [association (VInt 0) (VInt 1) lat_ny lon_ny]
       (lat_ny, lon_ny)
     = Raise AttributeError.
Proof.
  split.
  - apply (proj1 (generate_geojson_output_raises VNone (lat_ny, lon_ny))).
    + repeat constructor.
    + reflexivity.
  - apply (proj2 (generate_geojson_output_raises VNone (lat_ny, lon_ny))).
    + repeat constructor.
    + discriminate.
Defined.

(** X9. The document determines the fields it was built from: two
    associations with the same feature have the same index, timestamp,
    latitude and longitude. *)
Theorem feature_determines_fields (a1 a2 : gmap string pyval) (f : pyval) :
  feature a1 = Ok f ->
  feature a2 = Ok f ->
  a1 !! "index" = a2 !! "index" /\
  a1 !! "timestamp" = a2 !! "timestamp" /\
  a1 !! "latitude" = a2 !! "latitude" /\
  a1 !! "longitude" = a2 !! "longitude".
Proof.
  unfold feature, dict_get_item.
  destruct (a1 !! "longitude") as [lo1|]; [|discriminate].
  destruct (a1 !! "latitude") as [la1|]; [|discriminate].
  destruct (a1 !! "index") as [i1|]; [|discriminate].
  destruct (a1 !! "timestamp") as [t1|]; [|discriminate].
  destruct (a2 !! "longitude") as [lo2|]; [|discriminate].
  destruct (a2 !! "latitude") as [la2|]; [|discriminate].
  destruct (a2 !! "index") as [i2|]; [|discriminate].
  destruct (a2 !! "timestamp") as [t2|]; [|discriminate].
  cbn [mbind result_bind]. intros H1 H2. rewrite <- H1 in H2. clear H1.
  set (entry := fun (v : option pyval) (key : string) =>
                  match v with Some (VDict m) => m !! key | _ => None end).
  set (top := fun (r : result pyval) (key : string) =>
                match r with Ok v => entry (Some v) key | Raise _ => None end).
  pose proof (f_equal (fun r => entry (top r "geometry") "coordinates") H2) as Hc.
  pose proof (f_equal (fun r => entry (top r "properties") "index") H2) as Hi.
  pose proof (f_equal (fun r => entry (top r "properties") "timestamp") H2) as Ht.
  vm_compute in Hc, Hi, Ht.
  inversion Hc. inversion Hi. inversion Ht. subst. done.
Qed.

Lemma feature_determines_fields_witness :
  association (VInt 0) (VInt 1) lat_ny lon_ny !! "index"
  = <["extra" := VNone]> (association (VInt 0) (VInt 1) lat_ny lon_ny) !! "index" /\
  association (VInt 0) (VInt 1) lat_ny lon_ny !! "timestamp"
  = <["extra" := VNone]> (association (VInt 0) (VInt 1) lat_ny lon_ny) !! "timestamp" /\
  association (VInt 0) (VInt 1) lat_ny lon_ny !! "latitude"
  = <["extra" := VNone]> (association (VInt 0) (VInt 1) lat_ny lon_ny) !! "latitude" /\
  association (VInt 0) (VInt 1) lat_ny lon_ny !! "longitude"
  = <["extra" := VNone]> (association (VInt 0) (VInt 1) lat_ny lon_ny) !! "longitude".
Proof.
  apply (feature_determines_fields
           (association (VInt 0) (VInt 1) lat_ny lon_ny)
           (<["extra" := VNone]> (association (VInt 0) (VInt 1) lat_ny lon_ny))
           (point_feature (VInt 0) (VInt 1) (VFloat lat_ny) (VFloat lon_ny))).
  - reflexivity.
  - reflexivity.
Defined.

(** ** The batch: which files are read and what is written *)

(** The comprehension that lists the manifests, from any first index. *)
Lemma json_files_from_elem (folder : string) (files : list string) (i index : nat)
    (path : string) :
  (index, path) ∈ json_files_from folder i files <->
  exists file, (i <= index)%nat /\ files !! (index - i)%nat = Some file /\
               endswith ".json" file = true /\ path = path_join folder file.
Proof.
  revert i. induction files as [|file rest IH]; intros i.
  - cbn [json_files_from]. split; [intros H; inversion H|].
    intros (f & _ & Hf & _). discriminate.
  - cbn [json_files_from]. destruct (endswith ".json" file) eqn:Hj.
    + rewrite elem_of_cons, IH. split.
      * intros [Heq|(f & Hle & Hf & Hend & Hp)].
        -- inversion Heq; subst. exists file. rewrite Nat.sub_diag. auto.
        -- exists f. split; [lia|]. split; [|auto].
           replace (index - i)%nat with (S (index - S i)) by lia. exact Hf.
      * intros (f & Hle & Hf & Hend & Hp).
        destruct (decide (index = i)) as [->|Hne].
        -- rewrite Nat.sub_diag in Hf. inversion Hf; subst. auto.
        -- right. exists f. split; [lia|]. split; [|auto].
           replace (index - i)%nat with (S (index - S i)) in Hf by lia. exact Hf.
    + rewrite IH. split.
      * intros (f & Hle & Hf & Hend & Hp). exists f. split; [lia|]. split; [|auto].
        replace (index - i)%nat with (S (index - S i)) by lia. exact Hf.
      * intros (f & Hle & Hf & Hend & Hp).
        destruct (decide (index = i)) as [->|Hne].
        -- rewrite Nat.sub_diag in Hf. inversion Hf; subst. congruence.
        -- exists f. split; [lia|]. split; [|auto].
           replace (index - i)%nat with (S (index - S i)) in Hf by lia. exact Hf.
Qed.

Lemma json_files_from_nodup (folder : string) (files : list string) (i : nat) :
  NoDup (json_files_from folder i files).*1.
Proof.
  revert i. induction files as [|file rest IH]; intros i.
  - constructor.
  - cbn [json_files_from]. destruct (endswith ".json" file); [|apply IH].
    cbn [fmap list_fmap fst]. constructor; [|apply IH].
    intros Hin. apply list_elem_of_fmap in Hin as ([index path] & Hi & Hin).
    cbn [fst] in Hi. subst index. apply json_files_from_elem in Hin as (f & Hle & _). lia.
Qed.

(** X10. The manifests of a batch are exactly the entries of the listing
    whose name ends in [.json], each with its position in the whole
    listing (not its rank among the manifests) and its path under the
    folder; the positions are pairwise distinct. *)
Theorem json_files_are_listing_positions (folder : string) (files : list string) :
  (forall index path,
     (index, path) ∈ json_files_from folder 0 files <->
     exists file, files !! index = Some file /\ endswith ".json" file = true /\
                  path = path_join folder file)
  /\ NoDup (json_files_from folder 0 files).*1.
Proof.
  split; [|apply json_files_from_nodup].
  intros index path. rewrite json_files_from_elem. split.
  - intros (f & _ & Hf & H). rewrite Nat.sub_0_r in Hf. eauto.
  - intros (f & Hf & H). exists f. rewrite Nat.sub_0_r. split; [lia|auto].
Qed.

(** X11. Which position log a batch uses: none exactly when no entry of
    the listing ends in [.pos], and otherwise the first such entry, under
    the folder; later ones are never opened. *)
Theorem position_log_is_first_pos_entry (folder : string) (files : list string) :
  (find_pos_file folder files = None <->
   Forall (fun file => endswith ".pos" file = false) files)
  /\ (forall path,
        find_pos_file folder files = Some path <->
        exists before file after,
          files = before ++ file :: after /\
          Forall (fun file => endswith ".pos" file = false) before /\
          endswith ".pos" file = true /\ path = path_join folder file).
Proof.
  induction files as [|file rest [IHn IHs]]; cbn [find_pos_file].
  - split; [split; [constructor|reflexivity]|].
    intros path. split; [discriminate|].
    intros (b & f & a & Hf & _). destruct b; discriminate.
  - destruct (endswith ".pos" file) eqn:Hp.
    + split.
      * split; [discriminate|]. intros H. inversion H; subst. congruence.
      * intros path. split.
        -- intros H. inversion H; subst. exists [], file, rest. auto.
        -- intros (b & f & a & Hf & Hb & Hend & ->).
           destruct b as [|b0 b].
           ++ inversion Hf; subst. reflexivity.
           ++ inversion Hf; subst. inversion Hb; subst. congruence.
    + split.
      * rewrite IHn. split; [intros H; constructor; assumption|].
        intros H. inversion H; assumption.
      * intros path. rewrite IHs. split.
        -- intros (b & f & a & -> & Hb & Hend & ->).
           exists (file :: b), f, a. auto.
        -- intros (b & f & a & Hf & Hb & Hend & ->).
           destruct b as [|b0 b].
           ++ inversion Hf; subst. congruence.
           ++ inversion Hf; subst. inversion Hb; subst. exists b, f, a. auto.
Qed.

Lemma position_log_is_first_pos_entry_witness :
  find_pos_file "d" ["a.json"; "one.pos"; "two.pos"] = Some (path_join "d" "one.pos")
  /\ find_pos_file "d" ["a.json"; "b.json"] = None.
Proof.
  split.
  - apply (proj2 (position_log_is_first_pos_entry "d" ["a.json"; "one.pos"; "two.pos"])).
    exists ["a.json"], "one.pos", ["two.pos"]. repeat split. repeat constructor.
  - apply (proj1 (position_log_is_first_pos_entry "d" ["a.json"; "b.json"])).
    repeat constructor.
Defined.

(** *** Output names *)

Lemma append_chars (s1 s2 : string) :
  list_ascii_of_string (s1 +:+ s2)
  = list_ascii_of_string s1 ++ list_ascii_of_string s2.
Proof.
  induction s1 as [|c s1 IH]; [reflexivity|]. simpl. rewrite IH. reflexivity.
Qed.

Lemma append_cancel_r (s1 s2 t : string) : s1 +:+ t = s2 +:+ t -> s1 = s2.
Proof.
  intros H. apply (f_equal list_ascii_of_string) in H.
  rewrite !append_chars in H. apply app_inv_tail in H.
  apply (f_equal string_of_list_ascii) in H.
  rewrite !string_of_list_ascii_of_string in H. exact H.
Qed.

Lemma to_uint_nonnil (n : nat) : Nat.to_uint n <> Decimal.Nil.
Proof.
  rewrite <- (DecimalNat.Unsigned.of_to n) at 1.
  rewrite DecimalNat.Unsigned.to_of. apply DecimalFacts.unorm_nonnil.
Qed.

Lemma str_of_nat_inj (a b : nat) : str_of_nat a = str_of_nat b -> a = b.
Proof.
  unfold str_of_nat. intros H.
  apply (f_equal NilZero.uint_of_string) in H.
  rewrite !NilZero.usu in H by apply to_uint_nonnil.
  inversion H as [Hu]. apply DecimalNat.Unsigned.to_uint_inj, Hu.
Qed.

(** Two positions of the listing never share an output name. *)
Lemma output_name_inj (output_file : string) (a b : nat) :
  output_name output_file a = output_name output_file b -> a = b.
Proof.
  unfold output_name. intros H.
  apply String.app_inj in H. apply String.app_inj in H.
  apply append_cancel_r in H. apply str_of_nat_inj, H.
Qed.

Section Outputs.
Variable fs : filesystem.
Variable output_file : string.
Variable pos_data : option (list sample).

(** What the loop has written is what was there, then those of the
    documents of an initial part of the manifests whose write did not
    fail. *)
Lemma process_loop_writes_prefix (json_files : list (nat * string)) (w : writes) :
  exists processed rest,
    json_files = processed ++ rest /\
    (process_loop fs output_file pos_data json_files w).1
    = w ++ written fs (documents fs output_file pos_data processed).
Proof.
  revert w. induction json_files as [|[index json_file] tail IH]; intros w.
  - exists [], []. split; [reflexivity|].
    cbn [process_loop documents fst]. rewrite app_nil_r. reflexivity.
  - cbn [process_loop].
    destruct (manifest_document fs pos_data json_file) as [geojson|e] eqn:Hd.
    + destruct (IH (write_geojson_file fs
                      (output_file +:+ "_" +:+ str_of_nat index +:+ ".json") geojson w))
        as (dn & rest & -> & Hw).
      exists ((index, json_file) :: dn), rest. split; [reflexivity|].
      rewrite Hw. cbn [documents]. rewrite Hd.
      rewrite write_geojson_file_written, <- app_assoc, <- written_app. reflexivity.
    + exists [], ((index, json_file) :: tail). split; [reflexivity|].
      cbn [documents fst]. rewrite app_nil_r. reflexivity.
Qed.

(** Every document of [documents] is the document of one of the manifests,
    under the name of its position. *)
Lemma documents_elem (json_files : list (nat * string)) (path : string) (doc : pyval) :
  (path, doc) ∈ documents fs output_file pos_data json_files ->
  exists index json_file,
    (index, json_file) ∈ json_files /\
    path = output_name output_file index /\
    manifest_document fs pos_data json_file = Ok doc.
Proof.
  induction json_files as [|[index json_file] tail IH]; cbn [documents].
  - intros H. inversion H.
  - destruct (manifest_document fs pos_data json_file) as [geojson|e] eqn:Hd.
    + rewrite elem_of_cons. intros [Heq|Hin].
      * inversion Heq; subst. exists index, json_file.
        split; [apply list_elem_of_here|]. auto.
      * destruct (IH Hin) as (i & f & Hi & Hp & Hdoc).
        exists i, f. split; [apply list_elem_of_further, Hi|auto].
    + intros Hin. destruct (IH Hin) as (i & f & Hi & Hp & Hdoc).
      exists i, f. split; [apply list_elem_of_further, Hi|auto].
Qed.

Lemma documents_names_nodup (json_files : list (nat * string)) :
  NoDup json_files.*1 ->
  NoDup (documents fs output_file pos_data json_files).*1.
Proof.
  induction json_files as [|[index json_file] tail IH]; cbn [documents].
  - constructor.
  - cbn [fmap list_fmap fst]. intros Hnd. apply NoDup_cons in Hnd as [Hnotin Hnd].
    destruct (manifest_document fs pos_data json_file) as [geojson|e]; [|apply IH, Hnd].
    cbn [fmap list_fmap fst]. constructor; [|apply IH, Hnd].
    intros Hin. apply list_elem_of_fmap in Hin as ([p d] & Hp & Hin).
    cbn [fst] in Hp. apply documents_elem in Hin as (i & f & Hi & Hname & _).
    subst p. fold (output_name output_file index) in Hname.
    apply output_name_inj in Hname. subst i.
    apply Hnotin. apply list_elem_of_fmap. exists (index, f). auto.
Qed.
End Outputs.

(** X12. Whatever the folder holds and however the batch ends, the files
    it has written have pairwise distinct names, and each of them is the
    document of the manifest found at some position of the listing,
    written under [<output_file>_<position>.json]: no output is
    overwritten and none is made up. *)
Theorem process_files_outputs {rt : Runtime} (fs : filesystem)
    (folder output_file : string) :
  NoDup (process_files fs folder output_file).1.*1
  /\ (forall path doc,
        (path, doc) ∈ (process_files fs folder output_file).1 ->
        exists files index file pos_file pos_data,
          listdir fs folder = Ok files /\
          files !! index = Some file /\
          endswith ".json" file = true /\
          path = output_name output_file index /\
          find_pos_file folder files = Some pos_file /\
          parse_pos_file fs pos_file = Ok pos_data /\
          manifest_document fs pos_data (path_join folder file) = Ok doc).
Proof.
  unfold process_files.
  destruct (listdir fs folder) as [files|e] eqn:Hls;
    [|split; [constructor|intros p d H; inversion H]].
  destruct (find_pos_file folder files) as [pos_file|] eqn:Hpf;
    [|split; [constructor|intros p d H; inversion H]].
  destruct (parse_pos_file fs pos_file) as [pos_data|e] eqn:Hparse;
    [|split; [constructor|intros p d H; inversion H]].
  destruct (process_loop_writes_prefix fs output_file pos_data
              (json_files_from folder 0 files) []) as (dn & rest & Hsplit & Hw).
  rewrite Hw, app_nil_l.
  pose proof (json_files_from_nodup folder files 0) as Hnd.
  split.
  - apply written_names_nodup, documents_names_nodup.
    rewrite Hsplit, fmap_app in Hnd. apply NoDup_app in Hnd as [Hnd _]. exact Hnd.
  - intros path doc Hin. apply written_elem in Hin as [Hin _].
    apply documents_elem in Hin as (index & json_file & Hi & Hname & Hdoc).
    assert (Hin' : (index, json_file) ∈ json_files_from folder 0 files).
    { rewrite Hsplit. apply elem_of_app. left. exact Hi. }
    apply json_files_from_elem in Hin' as (file & _ & Hf & Hend & ->).
    rewrite Nat.sub_0_r in Hf.
    exists files, index, file, pos_file, pos_data. auto 10.
Qed.

Lemma json_files_are_listing_positions_witness :
  exists file, ["notes.txt"; "a.json"; "t.pos"; "b.json"] !! 3%nat = Some file /\
               endswith ".json" file = true /\ "d/b.json" = path_join "d" file.
Proof.
  apply (proj1 (json_files_are_listing_positions "d"
                  ["notes.txt"; "a.json"; "t.pos"; "b.json"]) 3%nat "d/b.json").
  apply list_elem_of_In. vm_compute. auto.
Defined.

Lemma process_files_outputs_witness :
  exists files index file pos_file pos_data,
    listdir demo_fs "d" = Ok files /\
    files !! index = Some file /\
    endswith ".json" file = true /\
    "geojson_0.json" = output_name "geojson" index /\
    find_pos_file "d" files = Some pos_file /\
    parse_pos_file demo_fs pos_file = Ok pos_data /\
    manifest_document demo_fs pos_data (path_join "d" file)
    = manifest_document demo_fs (Some demo_track) "d/b.json".
Proof.
  destruct (manifest_document demo_fs (Some demo_track) "d/b.json") as [doc|e] eqn:Hd;
    [|vm_compute in Hd; discriminate].
  apply (proj2 (process_files_outputs demo_fs "d" "geojson") "geojson_0.json" doc).
  assert (Hw : (process_files demo_fs "d" "geojson").1
               = documents demo_fs "geojson" (Some demo_track) [(0%nat, "d/b.json")])
    by (vm_compute; reflexivity).
  rewrite Hw. cbn [documents]. rewrite Hd. apply list_elem_of_here.
Defined.

(** X13. A manifest that cannot be read or decoded stops the batch: the
    None that [parse_json_file] returns for it is subscripted and
    TypeError leaves [process_files].  The files written are those of the
    documents of the manifests before it whose write did not fail, a
    failed write being reported and passed over: all of them when no
    write fails.  The manifests after it are not processed. *)
Theorem process_files_unreadable_manifest {rt : Runtime} (fs : filesystem)
    (folder output_file : string) (files : list string) (pos_file : string)
    (pos_data : option (list sample)) (before after : list (nat * string))
    (index : nat) (json_file : string) :
  listdir fs folder = Ok files ->
  find_pos_file folder files = Some pos_file ->
  parse_pos_file fs pos_file = Ok pos_data ->
  json_files_from folder 0 files = before ++ (index, json_file) :: after ->
  Forall (fun jf => is_ok (manifest_document fs pos_data jf.2) = true) before ->
  json_load fs json_file = None ->
  process_files fs folder output_file
  = (written fs (documents fs output_file pos_data before), Raise TypeError)
  /\ (Forall (fun pd => write_ok fs pd.1 pd.2 = true)
             (documents fs output_file pos_data before) ->
      (process_files fs folder output_file).1
      = documents fs output_file pos_data before).
Proof.
  intros Hls Hpf Hparse Hsplit Hall Hload.
  assert (He : manifest_document fs pos_data json_file = Raise TypeError).
  { unfold manifest_document, parse_json_file. rewrite Hload. reflexivity. }
  assert (Hrun : process_files fs folder output_file
                 = (written fs (documents fs output_file pos_data before),
                    Raise TypeError)).
  { unfold process_files. rewrite Hls, Hpf, Hparse, Hsplit.
    rewrite (process_loop_first_failure fs output_file pos_data before after
               index json_file TypeError [] Hall He).
    reflexivity. }
  split; [exact Hrun|].
  intros Hw. rewrite Hrun. cbn [fst]. apply (written_all fs _ Hw).
Qed.

Lemma process_files_unreadable_manifest_witness :
  process_files broken_fs "d" "geojson"
  = (written broken_fs
       (documents broken_fs "geojson" (Some demo_track) [(0%nat, "d/b.json")]),
     Raise TypeError)
  /\ (Forall (fun pd => write_ok broken_fs pd.1 pd.2 = true)
             (documents broken_fs "geojson" (Some demo_track) [(0%nat, "d/b.json")]) ->
      (process_files broken_fs "d" "geojson").1
      = documents broken_fs "geojson" (Some demo_track) [(0%nat, "d/b.json")]).
Proof.
  apply (process_files_unreadable_manifest broken_fs "d" "geojson"
           ["b.json"; "x.json"; "c.json"; "track.pos"] "d/track.pos" (Some demo_track)
           [(0%nat, "d/b.json")] [(2%nat, "d/c.json")] 1%nat "d/x.json").
  - reflexivity.
  - reflexivity.
  - vm_compute. reflexivity.
  - reflexivity.
  - repeat constructor.
  - reflexivity.
Defined.

(** ** The position log: what does not matter, and the first bad line *)

Section ParserMore.
Context {rt : Runtime}.

(** Skipped lines leave no trace. *)
Lemma parse_pos_loop_filter (lines : list string) (acc : list sample) :
  parse_pos_loop lines acc = parse_pos_loop (List.filter data_line lines) acc.
Proof.
  revert acc. induction lines as [|line rest IH]; intros acc; [reflexivity|].
  cbn [parse_pos_loop List.filter]. rewrite skipped_data_line.
  destruct (data_line line) eqn:Hd; cbn [negb].
  - cbn [parse_pos_loop]. rewrite skipped_data_line, Hd. cbn [negb].
    destruct (parse_pos_line line); cbn [mbind result_bind]; [apply IH|reflexivity].
  - apply IH.
Qed.

(** X14. Nothing before the first marker line, and no comment or blank
    line after it, has any effect on the track: the parser gives the same
    result, sample for sample or exception for exception, as on the marker
    followed by the data lines alone.  In particular a malformed header
    line is never parsed, and a second marker line is a comment. *)
Theorem parse_pos_lines_ignores (pre : list string) (m : string) (data : list string) :
  Forall (fun line => startswith "%  GPST" line = false) pre ->
  startswith "%  GPST" m = true ->
  parse_pos_lines (pre ++ m :: data) = parse_pos_lines (m :: List.filter data_line data).
Proof.
  intros Hpre Hm. unfold parse_pos_lines, data_start_index.
  rewrite (data_start_after_marker pre m data 0 Hpre Hm).
  cbn [data_start_from]. rewrite Hm. cbn [drop].
  replace (pre ++ m :: data) with ((pre ++ [m]) ++ data)
    by (rewrite <- app_assoc; reflexivity).
  rewrite drop_app_length' by (rewrite length_app; simpl; lia).
  apply parse_pos_loop_filter.
Qed.

(** X15. A data line that does not parse is not skipped: the first such
    line after the marker makes the parser raise that line's exception,
    whatever the lines after it are, and no partial track is returned. *)
Theorem parse_pos_lines_first_bad_line (pre : list string) (m : string)
    (good : list string) (line : string) (after : list string)
    (samples : list sample) (e : exn) :
  Forall (fun line => startswith "%  GPST" line = false) pre ->
  startswith "%  GPST" m = true ->
  Forall2 (fun line s => parse_pos_line line = Ok s) (List.filter data_line good) samples ->
  data_line line = true ->
  parse_pos_line line = Raise e ->
  parse_pos_lines (pre ++ m :: good ++ line :: after) = Raise e.
Proof.
  intros Hpre Hm Hgood Hd He. unfold parse_pos_lines, data_start_index.
  rewrite (data_start_after_marker pre m (good ++ line :: after) 0 Hpre Hm).
  replace (pre ++ m :: good ++ line :: after)
    with ((pre ++ [m]) ++ good ++ line :: after)
    by (rewrite <- app_assoc; reflexivity).
  rewrite drop_app_length' by (rewrite length_app; simpl; lia).
  eapply parse_pos_loop_raises; eassumption.
Qed.

(** The fields a line is read from: the first four of its split. *)
Lemma parse_pos_line_fields (line : string) :
  parse_pos_line line
  = match str_split line with
    | p0 :: p1 :: rest =>
        dt ← strptime (p0 +:+ " " +:+ p1) "%Y/%m/%d %H:%M:%S.%f";
        timestamp ← date_str_to_timestamp dt;
        match rest with
        | p2 :: rest' =>
            latitude ← float_of_str p2;
            match rest' with
            | p3 :: _ => longitude ← float_of_str p3; Ok (timestamp, latitude, longitude)
            | [] => Raise IndexError
            end
        | [] => Raise IndexError
        end
    | _ => Raise IndexError
    end.
Proof.
  unfold parse_pos_line.
  destruct (str_split line) as [|p0 [|p1 [|p2 [|p3 rest]]]]; reflexivity.
Qed.

(** X16. A data line gives a sample only if it has at least four fields,
    and the sample depends on the first four only: a line with fewer
    fields always raises, and two lines whose first four fields are the
    same parse alike, whatever follows them. *)
Theorem parse_pos_line_four_fields (line : string) :
  ((length (str_split line) < 4)%nat -> exists e, parse_pos_line line = Raise e)
  /\ (forall line', take 4 (str_split line') = take 4 (str_split line) ->
                    parse_pos_line line' = parse_pos_line line).
Proof.
  split.
  - intros Hlen. rewrite parse_pos_line_fields.
    destruct (str_split line) as [|p0 [|p1 [|p2 [|p3 rest]]]];
      try (eexists; reflexivity); [| |simpl in Hlen; lia].
    + destruct (strptime _ _); cbn [mbind result_bind]; [|eauto].
      destruct (date_str_to_timestamp _); cbn [mbind result_bind]; eauto.
    + destruct (strptime _ _); cbn [mbind result_bind]; [|eauto].
      destruct (date_str_to_timestamp _); cbn [mbind result_bind]; [|eauto].
      destruct (float_of_str p2); cbn [mbind result_bind]; eauto.
  - intros line' Htake. rewrite !parse_pos_line_fields.
    destruct (str_split line) as [|p0 [|p1 [|p2 [|p3 rest]]]];
      destruct (str_split line') as [|q0 [|q1 [|q2 [|q3 rest']]]];
      cbn [take] in Htake; try discriminate; try reflexivity;
      inversion Htake; subst; reflexivity.
Qed.
End ParserMore.

Lemma parse_pos_lines_ignores_witness :
  parse_pos_lines
    (["not a date at all" +:+ nl]
     ++ ("%  GPST" +:+ nl)
     :: ["%  GPST again" +:+ nl; nl;
         "2024/01/01 00:00:00.000 40.712776 -74.005974" +:+ nl])
  = parse_pos_lines
      (("%  GPST" +:+ nl)
       :: List.filter data_line
            ["%  GPST again" +:+ nl; nl;
             "2024/01/01 00:00:00.000 40.712776 -74.005974" +:+ nl]).
Proof.
  apply (parse_pos_lines_ignores ["not a date at all" +:+ nl] ("%  GPST" +:+ nl)).
  - repeat constructor.
  - reflexivity.
Defined.

Lemma parse_pos_lines_first_bad_line_witness :
  parse_pos_lines
    (["% header" +:+ nl]
     ++ ("%  GPST" +:+ nl)
     :: ["2024/01/01 00:00:00.000 40.712776 -74.005974" +:+ nl]
     ++ ("2024/01/01 00:00:01.000 40.712776" +:+ nl)
     :: ["2024/01/01 00:00:02.000 40.712776 -74.005974" +:+ nl])
  = Raise IndexError.
Proof.
  apply (parse_pos_lines_first_bad_line ["% header" +:+ nl] ("%  GPST" +:+ nl)
           ["2024/01/01 00:00:00.000 40.712776 -74.005974" +:+ nl]
           ("2024/01/01 00:00:01.000 40.712776" +:+ nl)
           ["2024/01/01 00:00:02.000 40.712776 -74.005974" +:+ nl]
           [(1704060000000000000, lat_ny, lon_ny)]).
  - repeat constructor.
  - reflexivity.
  - lazymatch goal with
    | |- Forall2 _ ?l _ => let l' := eval vm_compute in l in change l with l'
    end.
    constructor; [vm_compute; reflexivity|constructor].
  - reflexivity.
  - vm_compute. reflexivity.
Defined.

Lemma parse_pos_line_four_fields_witness :
  (exists e, parse_pos_line ("2024/01/01 00:00:01.000 40.712776" +:+ nl) = Raise e)
  /\ parse_pos_line ("2024/01/01 00:00:00.000 40.712776 -74.005974 12.5 1 9" +:+ nl)
     = parse_pos_line ("2024/01/01 00:00:00.000 40.712776 -74.005974" +:+ nl).
Proof.
  split.
  - apply (proj1 (parse_pos_line_four_fields
                    ("2024/01/01 00:00:01.000 40.712776" +:+ nl))).
    vm_compute. lia.
  - apply (proj2 (parse_pos_line_four_fields
                    ("2024/01/01 00:00:00.000 40.712776 -74.005974" +:+ nl))).
    vm_compute. reflexivity.
Defined.

(** ** A batch that ends normally *)

Lemma process_loop_ok_inv (fs : filesystem) (output_file : string)
    (pos_data : option (list sample)) (json_files : list (nat * string)) (w : writes) :
  (process_loop fs output_file pos_data json_files w).2 = Ok tt ->
  Forall (fun jf => is_ok (manifest_document fs pos_data jf.2) = true) json_files.
Proof.
  revert w. induction json_files as [|[index json_file] tail IH]; intros w Hok.
  - constructor.
  - cbn [process_loop] in Hok.
    destruct (manifest_document fs pos_data json_file) as [geojson|e] eqn:Hd;
      [|discriminate].
    constructor; [cbn [snd]; rewrite Hd; reflexivity|]. eapply IH, Hok.
Qed.

(** X17. When [process_files] returns normally, every manifest of the
    folder gave a document, one for each [.json] entry of the listing, and
    each was passed to [write_geojson_file].  The files written are those
    of these documents whose write did not fail, a failed write being
    reported and passed over: the batch has as many output files as the
    listing has [.json] entries when no write fails, and fewer
    otherwise. *)
Theorem process_files_normal_end {rt : Runtime} (fs : filesystem)
    (folder output_file : string) :
  (process_files fs folder output_file).2 = Ok tt ->
  exists files pos_file pos_data,
    listdir fs folder = Ok files /\
    find_pos_file folder files = Some pos_file /\
    parse_pos_file fs pos_file = Ok pos_data /\
    Forall (fun jf => is_ok (manifest_document fs pos_data jf.2) = true)
           (json_files_from folder 0 files) /\
    length (documents fs output_file pos_data (json_files_from folder 0 files))
    = length (json_files_from folder 0 files) /\
    (process_files fs folder output_file).1
    = written fs (documents fs output_file pos_data (json_files_from folder 0 files)) /\
    (Forall (fun pd => write_ok fs pd.1 pd.2 = true)
            (documents fs output_file pos_data (json_files_from folder 0 files)) ->
     length (process_files fs folder output_file).1
     = length (json_files_from folder 0 files)) /\
    (Exists (fun pd => write_ok fs pd.1 pd.2 = false)
            (documents fs output_file pos_data (json_files_from folder 0 files)) ->
     (length (process_files fs folder output_file).1
      < length (json_files_from folder 0 files))%nat).
Proof.
  unfold process_files.
  destruct (listdir fs folder) as [files|e] eqn:Hls; [|discriminate].
  destruct (find_pos_file folder files) as [pos_file|] eqn:Hpf; [|discriminate].
  destruct (parse_pos_file fs pos_file) as [pos_data|e] eqn:Hparse; [|discriminate].
  intros Hok. apply process_loop_ok_inv in Hok.
  exists files, pos_file, pos_data.
  rewrite (process_loop_all_ok fs output_file pos_data _ [] Hok).
  cbn [fst app].
  pose proof (documents_length fs output_file pos_data _ Hok) as Hlen.
  split; [reflexivity|]. split; [exact Hpf|]. split; [exact Hparse|].
  split; [exact Hok|]. split; [exact Hlen|]. split; [reflexivity|]. split.
  - intros Hw. rewrite (written_all fs _ Hw). exact Hlen.
  - intros Hw. rewrite <- Hlen. apply written_some_failed, Hw.
Qed.

Lemma process_files_normal_end_witness :
  exists files pos_file pos_data,
    listdir sound_fs "d" = Ok files /\
    find_pos_file "d" files = Some pos_file /\
    parse_pos_file sound_fs pos_file = Ok pos_data /\
    Forall (fun jf => is_ok (manifest_document sound_fs pos_data jf.2) = true)
           (json_files_from "d" 0 files) /\
    length (documents sound_fs "geojson" pos_data (json_files_from "d" 0 files))
    = length (json_files_from "d" 0 files) /\
    (process_files sound_fs "d" "geojson").1
    = written sound_fs (documents sound_fs "geojson" pos_data (json_files_from "d" 0 files)) /\
    (Forall (fun pd => write_ok sound_fs pd.1 pd.2 = true)
            (documents sound_fs "geojson" pos_data (json_files_from "d" 0 files)) ->
     length (process_files sound_fs "d" "geojson").1
     = length (json_files_from "d" 0 files)) /\
    (Exists (fun pd => write_ok sound_fs pd.1 pd.2 = false)
            (documents sound_fs "geojson" pos_data (json_files_from "d" 0 files)) ->
     (length (process_files sound_fs "d" "geojson").1
      < length (json_files_from "d" 0 files))%nat).
Proof.
  apply (process_files_normal_end sound_fs "d" "geojson").
  vm_compute. reflexivity.
Defined.

(** The batch whose output directory does not exist: both manifests give
    a document, both writes fail and are reported, and [process_files]
    returns normally with no file written. *)
Example process_files_unwritable_output :
  process_files sound_fs "d" "no_such_dir/geojson" = ([], Ok tt)
  /\ length (documents sound_fs "no_such_dir/geojson" (Some demo_track)
               (json_files_from "d" 0 ["b.json"; "notes.txt"; "c.json"; "track.pos"]))
     = 2%nat
  /\ length (process_files sound_fs "d" "geojson").1 = 2%nat.
Proof. repeat split; vm_compute; reflexivity. Qed.
